(** * WeddingSite upload backend: a shallow embedding of the two Go handlers

    The repository holds two copies of one HTTP handler:
    - [Backend/main.go]: field ["file"], port 8080, no CORS ("plain");
    - the second [main.go]: field ["image"], port 8085, CORS headers and an
      [OPTIONS] short cut ("cors").

    The Go standard library the handlers call ([net/http], [os], [io],
    [path/filepath], [time], [fmt]) is not part of the repository.  It is
    modelled below by its documented behaviour, as small executable
    functions over an explicit state; what the operating system decides
    (clock readings, I/O failures) is an input, [Env]. *)

From Stdlib Require Import ZArith String Ascii List Lia.
From Stdlib.Strings Require Import Byte.
From stdpp Require Import base option list gmap strings pretty fin_maps.

Open Scope string_scope.
Open Scope Z_scope.

(** ** Strings *)

(** The line feed, written ["\n"] in the Go sources. *)
Definition LF : string := String (ascii_of_nat 10) EmptyString.

(** The tab, written ["\t"] there. *)
Definition TAB : string := String (ascii_of_nat 9) EmptyString.

(** ** path/filepath (Unix) *)

Definition Separator : ascii := "/"%char.

(** The elements of a path between separators. *)
Fixpoint split_sep (s : string) : list string :=
  match s with
  | EmptyString => [EmptyString]
  | String c rest =>
      if Ascii.eqb c Separator then EmptyString :: split_sep rest
      else match split_sep rest with
           | [] => [String c EmptyString]
           | h :: t => String c h :: t
           end
  end.

Fixpoint contains_sep (s : string) : bool :=
  match s with
  | EmptyString => false
  | String c rest => Ascii.eqb c Separator || contains_sep rest
  end.

Definition IsAbs (p : string) : bool :=
  match p with
  | String c _ => Ascii.eqb c Separator
  | EmptyString => false
  end.

(** The rules of [filepath.Clean] on the elements of a path: empty and
    ["."] elements go, an inner [".."] goes with the element before it, a
    [".."] at the start of a rooted path goes. [stack] is the output so far,
    last element first. *)
Fixpoint clean_elems (rooted : bool) (stack elems : list string) : list string :=
  match elems with
  | [] => rev stack
  | e :: rest =>
      if String.eqb e "" || String.eqb e "." then clean_elems rooted stack rest
      else if String.eqb e ".." then
        match stack with
        | top :: below =>
            if String.eqb top ".." then clean_elems rooted (e :: stack) rest
            else clean_elems rooted below rest
        | [] =>
            if rooted then clean_elems rooted [] rest
            else clean_elems rooted [e] rest
        end
      else clean_elems rooted (e :: stack) rest
  end.

Definition filepath_Clean (p : string) : string :=
  if String.eqb p "" then "."
  else
    let body := String.concat "/" (clean_elems (IsAbs p) [] (split_sep p)) in
    if IsAbs p then "/" ++ body
    else if String.eqb body "" then "." else body.

(** [filepath.Join]: the elements from the first non-empty one on, joined by
    the separator, then cleaned; the empty string when all are empty. *)
Fixpoint filepath_Join (elem : list string) : string :=
  match elem with
  | [] => ""
  | e :: rest =>
      if String.eqb e "" then filepath_Join rest
      else filepath_Clean (String.concat "/" elem)
  end.

(** A file name that is one path element: no separator, not empty, not a
    dot element. *)
Definition plain_name (s : string) : bool :=
  negb (contains_sep s) && negb (String.eqb s "")
  && negb (String.eqb s ".") && negb (String.eqb s "..").

(** ** Go errors *)

Inductive error : Type :=
  | ErrNotExist (op path : string)
  | ErrExist (op path : string)
  | PathError (op path msg : string)
  | ErrNotMultipart
  | ErrMissingFile
  | errors_New (msg : string).

Inductive result (A : Type) : Type :=
  | Ok (a : A)
  | Err (e : error).
Arguments Ok {A} a.
Arguments Err {A} e.

Definition err_of {A} (r : result A) : option error :=
  match r with Ok _ => None | Err e => Some e end.

(** [err.Error()] *)
Definition Error (e : error) : string :=
  match e with
  | ErrNotExist op path => op ++ " " ++ path ++ ": no such file or directory"
  | ErrExist op path => op ++ " " ++ path ++ ": file exists"
  | PathError op path msg => op ++ " " ++ path ++ ": " ++ msg
  | ErrNotMultipart => "request Content-Type isn't multipart/form-data"
  | ErrMissingFile => "http: no such file"
  | errors_New msg => msg
  end.

Definition os_IsNotExist (err : option error) : bool :=
  match err with
  | Some (ErrNotExist _ _) => true
  | _ => false
  end.

(** ** The file system *)

(** A location on disk: rooted or relative to the working directory, and the
    cleaned elements of the path. The kernel resolves ["./uploads"] and
    ["uploads"] to the same location. *)
Definition fpath : Type := bool * list string.

Definition resolve (name : string) : fpath :=
  (IsAbs name, clean_elems (IsAbs name) [] (split_sep name)).

Definition parent (p : fpath) : fpath := (p.1, removelast p.2).

Inductive node : Type :=
  | Directory
  | Regular (data : list byte).

(** The root and the working directory are always there. *)
Definition lookup_node (fs : gmap fpath node) (p : fpath) : option node :=
  match p.2 with
  | [] => Some Directory
  | _ => fs !! p
  end.

(** The regular files directly inside directory [d], with their content:
    what listing the directory shows. *)
Definition file_in (d : fpath) (p : fpath) : bool :=
  bool_decide (parent p = d) && bool_decide (p.2 <> []).

Definition data_of (n : node) : option (list byte) :=
  match n with Regular data => Some data | Directory => None end.

Definition files_in (d : fpath) (fs : gmap fpath node) : gmap fpath (list byte) :=
  omap data_of (filter (fun kv => file_in d kv.1 = true) fs).

(** ** mime/multipart and net/http *)

Record FileHeader : Type := {
  Filename : string;
  Size : Z;
  content : list byte
}.

(** [multipart.Form]: the value fields and the file fields, by field name. *)
Record Form : Type := {
  Value : gmap string (list string);
  Files : gmap string (list FileHeader)
}.

(** A request as the handler sees it. [Body] is what the multipart reader
    makes of the request's Content-Type and body: the form, or the error
    ([ErrNotMultipart] for a request that is not multipart at all). *)
Record Request : Type := {
  Method : string;
  URL_Path : string;
  Body : result Form
}.

Definition MethodGet : string := "GET".
Definition MethodPost : string := "POST".
Definition MethodOptions : string := "OPTIONS".

Definition StatusOK : Z := 200.
Definition StatusBadRequest : Z := 400.
Definition StatusMethodNotAllowed : Z := 405.
Definition StatusInternalServerError : Z := 500.

(** [defaultMaxMemory] of net/http, 32 MB: what [FormFile] parses with. *)
Definition defaultMaxMemory : Z := Z.shiftl 32 20.

(** [os.ModePerm], 0o777. *)
Definition ModePerm : Z := 511.

(** [http.ResponseWriter]: the header map, the status once written, and the
    body written so far. *)
Record ResponseWriter : Type := {
  Header : gmap string (list string);
  status : option Z;
  body : string
}.

(** The status the client receives: 200 when the handler wrote none. *)
Definition StatusCode (w : ResponseWriter) : Z := default StatusOK (status w).

(** ** What the environment decides *)

(** The reading of each call of [time.Now] (in nanoseconds, by the number of
    calls made before it), and the I/O failures the operating system injects:
    [Some e] makes the call fail with [e] whatever the disk holds. [io.Copy]
    fails after having written the given number of bytes. *)
Record Env : Type := {
  clock : nat -> Z;
  Open_fault : option error;
  Stat_fault : option error;
  Mkdir_fault : option error;
  Create_fault : option error;
  Copy_fault : option (nat * error)
}.

(** [Time.String] and [Duration.String] of package time. *)
Class Runtime : Type := {
  Time_String : Z -> string;
  Duration_String : Z -> string
}.

(** ** The state a handler runs on *)

(** The library calls a run makes, in order. *)
Inductive Event : Type :=
  | EvParseMultipartForm (maxMemory : Z)
  | EvFormFile (key : string)
  | EvStat (name : string)
  | EvMkdir (name : string) (perm : Z)
  | EvCreate (name : string)
  | EvCopy (dst : fpath) (written : nat).

Record State : Type := {
  response : ResponseWriter;
  MultipartForm : option Form;
  fs : gmap fpath node;
  ticks : nat;
  stdout : list string;
  trace : list Event
}.

(** What outlives a request: the disk, the clock, the process's output. *)
Record World : Type := {
  disk : gmap fpath node;
  reads : nat;
  console : list string
}.

Definition enter (w : World) : State :=
  {| response := {| Header := ∅; status := None; body := "" |};
     MultipartForm := None;
     fs := disk w; ticks := reads w; stdout := console w; trace := [] |}.

Definition set_response (f : ResponseWriter -> ResponseWriter) (st : State) : State :=
  {| response := f (response st); MultipartForm := MultipartForm st;
     fs := fs st; ticks := ticks st; stdout := stdout st; trace := trace st |}.

Definition set_MultipartForm (f : Form) (st : State) : State :=
  {| response := response st; MultipartForm := Some f;
     fs := fs st; ticks := ticks st; stdout := stdout st; trace := trace st |}.

Definition set_fs (f : gmap fpath node -> gmap fpath node) (st : State) : State :=
  {| response := response st; MultipartForm := MultipartForm st;
     fs := f (fs st); ticks := ticks st; stdout := stdout st; trace := trace st |}.

Definition tick (st : State) : State :=
  {| response := response st; MultipartForm := MultipartForm st;
     fs := fs st; ticks := S (ticks st); stdout := stdout st; trace := trace st |}.

Definition put_stdout (s : string) (st : State) : State :=
  {| response := response st; MultipartForm := MultipartForm st;
     fs := fs st; ticks := ticks st; stdout := stdout st ++ [s]; trace := trace st |}.

Definition log (e : Event) (st : State) : State :=
  {| response := response st; MultipartForm := MultipartForm st;
     fs := fs st; ticks := ticks st; stdout := stdout st; trace := trace st ++ [e] |}.

(** ** Handler code: state passing with Go's early [return] *)

Inductive Flow (A : Type) : Type :=
  | Next (a : A)
  | Returned.
Arguments Next {A} a.
Arguments Returned {A}.

Definition Handler (A : Type) : Type := State -> Flow A * State.

Definition ret {A} (a : A) : Handler A := fun st => (Next a, st).

Definition bind {A B} (m : Handler A) (k : A -> Handler B) : Handler B :=
  fun st =>
    match m st with
    | (Next a, st') => k a st'
    | (Returned, st') => (Returned, st')
    end.

(** Go's [return] inside the handler: nothing after it runs. *)
Definition return_ {A} : Handler A := fun st => (Returned, st).

Definition modify (f : State -> State) : Handler unit := fun st => (Next tt, f st).

Notation "'let*' x ':=' m 'in' k" := (bind m (fun x => k))
  (at level 10, x name, m at level 100, k at level 200).
Notation "m >> k" := (bind m (fun _ => k))
  (at level 90, right associativity).

(** ** The library calls *)

(** [time.Now()]: the next reading of the clock. *)
Definition time_Now (env : Env) : Handler Z :=
  fun st => (Next (clock env (ticks st)), tick st).

(** [w.Header().Set(key, value)] and [w.Header().Del(key)] *)
Definition Header_Set (key value : string) : Handler unit :=
  modify (set_response (fun w =>
    {| Header := <[key := [value]]> (Header w); status := status w; body := body w |})).

Definition Header_Del (key : string) : Handler unit :=
  modify (set_response (fun w =>
    {| Header := delete key (Header w); status := status w; body := body w |})).

(** [w.WriteHeader(code)]: the first status written stands. *)
Definition WriteHeader (code : Z) : Handler unit :=
  modify (set_response (fun w =>
    {| Header := Header w;
       status := match status w with Some c => Some c | None => Some code end;
       body := body w |})).

(** [w.Write(data)]: writes status 200 first when none was written. *)
Definition rw_Write (data : string) : Handler unit :=
  WriteHeader StatusOK >>
  modify (set_response (fun w =>
    {| Header := Header w; status := status w; body := body w ++ data |})).

(** [fmt.Fprintf(w, text)] with no operands. *)
Definition fmt_Fprintf (text : string) : Handler unit := rw_Write text.

(** [fmt.Fprintln(w, text)] *)
Definition fmt_Fprintln (text : string) : Handler unit := rw_Write (text ++ LF).

(** [http.Error(w, text, code)] *)
Definition http_Error (text : string) (code : Z) : Handler unit :=
  Header_Del "Content-Length" >>
  Header_Set "Content-Type" "text/plain; charset=utf-8" >>
  Header_Set "X-Content-Type-Options" "nosniff" >>
  WriteHeader code >>
  fmt_Fprintln text.

(** [fmt.Printf] and [fmt.Println] on standard output, the text already
    formatted. *)
Definition fmt_Print (text : string) : Handler unit := modify (put_stdout text).

(** [r.ParseMultipartForm(maxMemory)]: a form parsed before is kept. *)
Definition ParseMultipartForm (request : Request) (maxMemory : Z) : Handler (option error) :=
  modify (log (EvParseMultipartForm maxMemory)) >>
  fun st =>
    match MultipartForm st with
    | Some _ => (Next None, st)
    | None =>
        match Body request with
        | Ok f => (Next None, set_MultipartForm f st)
        | Err e => (Next (Some e), st)
        end
    end.

(** The first file of field [key] in the parsed form. *)
Definition first_file (key : string) (form : option Form) : option FileHeader :=
  match form with
  | Some f =>
      match Files f !! key with
      | Some (fh :: _) => Some fh
      | _ => None
      end
  | None => None
  end.

(** [r.FormFile(key)]: parses the form when no one has, then opens the first
    file of field [key]. The opened file is the bytes still to read. *)
Definition FormFile (env : Env) (request : Request) (key : string)
  : Handler (result (list byte * FileHeader)) :=
  modify (log (EvFormFile key)) >>
  fun st =>
    let parsed :=
      match MultipartForm st with
      | Some _ => (Next None, st)
      | None => ParseMultipartForm request defaultMaxMemory st
      end in
    match parsed with
    | (Next (Some e), st') => (Next (Err e), st')
    | (Next None, st') =>
        match first_file key (MultipartForm st') with
        | Some fh =>
            match Open_fault env with
            | Some e => (Next (Err e), st')
            | None => (Next (Ok (content fh, fh)), st')
            end
        | None => (Next (Err ErrMissingFile), st')
        end
    | (Returned, st') => (Returned, st')
    end.

(** [os.Stat(name)] *)
Definition os_Stat (env : Env) (name : string) : Handler (result node) :=
  modify (log (EvStat name)) >>
  fun st =>
    match Stat_fault env with
    | Some e => (Next (Err e), st)
    | None =>
        match lookup_node (fs st) (resolve name) with
        | Some n => (Next (Ok n), st)
        | None => (Next (Err (ErrNotExist "stat" name)), st)
        end
    end.

(** [os.Mkdir(name, perm)]: fails when the name is taken or its parent is
    no directory. *)
Definition os_Mkdir (env : Env) (name : string) (perm : Z) : Handler (option error) :=
  modify (log (EvMkdir name perm)) >>
  fun st =>
    match Mkdir_fault env with
    | Some e => (Next (Some e), st)
    | None =>
        match lookup_node (fs st) (resolve name) with
        | Some _ => (Next (Some (ErrExist "mkdir" name)), st)
        | None =>
            match lookup_node (fs st) (parent (resolve name)) with
            | Some Directory =>
                (Next None, set_fs (insert (resolve name) Directory) st)
            | Some (Regular _) =>
                (Next (Some (PathError "mkdir" name "not a directory")), st)
            | None => (Next (Some (ErrNotExist "mkdir" name)), st)
            end
        end
    end.

(** [os.Create(name)]: creates the file, or truncates the one there. The
    result stands for the open file: the location it writes to. *)
Definition os_Create (env : Env) (name : string) : Handler (result fpath) :=
  modify (log (EvCreate name)) >>
  fun st =>
    match Create_fault env with
    | Some e => (Next (Err e), st)
    | None =>
        match lookup_node (fs st) (resolve name) with
        | Some Directory => (Next (Err (PathError "open" name "is a directory")), st)
        | _ =>
            match lookup_node (fs st) (parent (resolve name)) with
            | Some Directory =>
                (Next (Ok (resolve name)),
                 set_fs (insert (resolve name) (Regular [])) st)
            | Some (Regular _) =>
                (Next (Err (PathError "open" name "not a directory")), st)
            | None => (Next (Err (ErrNotExist "open" name)), st)
            end
        end
    end.

(** [io.Copy(dst, src)] into a file just created: the bytes written before a
    failure stay in the file. *)
Definition io_Copy (env : Env) (dst : fpath) (src : list byte) : Handler (result Z) :=
  fun st =>
    match Copy_fault env with
    | Some (n, e) =>
        (Next (Err e),
         log (EvCopy dst (length (take n src)))
           (set_fs (insert dst (Regular (take n src))) st))
    | None =>
        (Next (Ok (Z.of_nat (length src))),
         log (EvCopy dst (length src)) (set_fs (insert dst (Regular src)) st))
    end.

(** ** The process *)

(** How [main] leaves the process. In Go the program exits when [main]
    returns, with status 0; [http.ListenAndServe] returns only with an error,
    so a listener that was bound keeps [main] (and the process) serving. *)
Inductive Exit : Type :=
  | Serving
  | Exited (code : Z).

(** The patterns registered with the default mux and their handlers, the
    lines printed on standard output, and how [main] ended. *)
Record Process : Type := {
  routes : list (string * (Env -> Request -> Handler unit));
  output : list string;
  exit : Exit
}.

(** ** Backend/main.go *)

Module Backend.

Definition uploadPath : string := "./uploads".

(** The deferred [file.Close()] and [destFile.Close()] release handles and
    leave disk and response as they are: they have no counterpart here. *)
Definition uploadHandler `{Runtime} (env : Env) (request : Request) : Handler unit :=
  let* start := time_Now env in
  (if String.eqb (Method request) MethodPost then
     let* r := FormFile env request "file" in
     match r with
     | Err _ =>
         http_Error ("Unable to get file from form" ++ LF) StatusBadRequest >>
         return_
     | Ok (file, _) =>
         let* info := os_Stat env uploadPath in
         (if os_IsNotExist (err_of info) then
            let* err := os_Mkdir env uploadPath ModePerm in
            match err with
            | Some _ =>
                http_Error ("Unable to create upload directory" ++ LF)
                  StatusInternalServerError >>
                return_
            | None => ret tt
            end
          else ret tt) >>
         let* now := time_Now env in
         let* created := os_Create env (filepath_Join [uploadPath; Time_String now]) in
         match created with
         | Err _ =>
             http_Error ("Unable to create file" ++ LF) StatusInternalServerError >>
             return_
         | Ok destFile =>
             let* copied := io_Copy env destFile file in
             match copied with
             | Err _ =>
                 http_Error ("Unable to save file" ++ LF) StatusInternalServerError >>
                 return_
             | Ok _ => fmt_Fprintf ("File successfully uploaded" ++ LF)
             end
         end
     end
   else
     http_Error ("Invalid request method" ++ LF) StatusMethodNotAllowed) >>
  let* checkpoint := time_Now env in
  fmt_Print ("Saved to file in: " ++ Duration_String (checkpoint - start) ++ LF).

(** [ListenAndServe addr] is what the call returns: [Some err] when the
    listener cannot be bound, [None] when it serves and never returns. *)
Definition main `{Runtime} (ListenAndServe : string -> option error) : Process :=
  let mux := [("/upload", uploadHandler)] in
  let out := ["Server started at http://localhost:8080" ++ LF] in
  match ListenAndServe ":8080" with
  | Some err =>
      {| routes := mux;
         output := out ++ ["Server failed: " ++ Error err ++ LF];
         exit := Exited 0 |}
  | None => {| routes := mux; output := out; exit := Serving |}
  end.

End Backend.

(** ** The second main.go: CORS headers, field ["image"], port 8085 *)

Module Cors.

Definition uploadPath : string := "./uploads".

Definition uploadHandler `{Runtime} (env : Env) (request : Request) : Handler unit :=
  let* start := time_Now env in
  Header_Set "Access-Control-Allow-Origin" "*" >>
  Header_Set "Access-Control-Allow-Methods" "POST" >>
  Header_Set "Access-Control-Allow-Headers" "Content-Type" >>
  (if String.eqb (Method request) MethodOptions then
     WriteHeader StatusOK >> return_
   else ret tt) >>
  let* err := ParseMultipartForm request (Z.shiftl 32 20) in
  match err with
  | Some _ => http_Error "Could not parse form" StatusBadRequest >> return_
  | None => ret tt
  end >>
  (if String.eqb (Method request) MethodPost then
     let* r := FormFile env request "image" in
     match r with
     | Err _ =>
         http_Error "Error retrieving the file" StatusBadRequest >>
         return_
     | Ok (file, _) =>
         let* info := os_Stat env uploadPath in
         (if os_IsNotExist (err_of info) then
            let* err := os_Mkdir env uploadPath ModePerm in
            match err with
            | Some _ =>
                http_Error ("Unable to create upload directory" ++ LF)
                  StatusInternalServerError >>
                return_
            | None => ret tt
            end
          else ret tt) >>
         let* now := time_Now env in
         let* created := os_Create env (filepath_Join [uploadPath; Time_String now]) in
         match created with
         | Err _ =>
             http_Error ("Unable to create file" ++ LF) StatusInternalServerError >>
             return_
         | Ok destFile =>
             let* copied := io_Copy env destFile file in
             match copied with
             | Err _ =>
                 http_Error ("Unable to save file" ++ LF) StatusInternalServerError >>
                 return_
             | Ok _ => fmt_Fprintf ("File successfully uploaded" ++ LF)
             end
         end
     end
   else
     http_Error ("Invalid request method" ++ LF) StatusMethodNotAllowed) >>
  let* checkpoint := time_Now env in
  let* now := time_Now env in
  fmt_Print ("Saved to file @ " ++ Time_String now ++ LF ++ TAB ++ "Saved in: "
             ++ Duration_String (checkpoint - start) ++ LF).

Definition main `{Runtime} (ListenAndServe : string -> option error) : Process :=
  let mux := [("/upload", uploadHandler)] in
  let out := ["Server started at http://localhost:8085" ++ LF] in
  match ListenAndServe ":8085" with
  | Some err =>
      {| routes := mux;
         output := out ++ ["Server failed: " ++ Error err ++ LF];
         exit := Exited 0 |}
  | None => {| routes := mux; output := out; exit := Serving |}
  end.

End Cors.

(** ** Running a handler on a request *)

(** The state the handler leaves: the response as sent, the disk, and the
    calls the run made. *)
Definition serve (h : Handler unit) (w : World) : State := (h (enter w)).2.

(** What the next request finds. *)
Definition leave (st : State) : World :=
  {| disk := fs st; reads := ticks st; console := stdout st |}.

(** The two copies of the handler, and the form field each reads. *)
Inductive variant : Type :=
  | Plain
  | CORS.

Definition handler `{Runtime} (v : variant) : Env -> Request -> Handler unit :=
  match v with
  | Plain => Backend.uploadHandler
  | CORS => Cors.uploadHandler
  end.

Definition field (v : variant) : string :=
  match v with
  | Plain => "file"
  | CORS => "image"
  end.

Definition run `{Runtime} (v : variant) (env : Env) (request : Request) (w : World) : State :=
  serve (handler v env request) w.

(** The form the request carries, when it parses. *)
Definition form_of (request : Request) : option Form :=
  match Body request with
  | Ok f => Some f
  | Err _ => None
  end.

(** The upload directory on disk, and the reading of [time.Now()] a request
    names its file by: the second one of the run (the first is [start]). *)
Definition uploads : fpath := resolve "./uploads".

Definition stamp (env : Env) (w : World) : Z := clock env (S (reads w)).

Definition stored `{Runtime} (env : Env) (w : World) : fpath :=
  (false, ["uploads"; Time_String (stamp env w)]).

(** No call fails for a reason of the operating system's own. *)
Definition no_fault (env : Env) : Prop :=
  Open_fault env = None /\ Stat_fault env = None /\ Mkdir_fault env = None
  /\ Create_fault env = None.

(** ** Names for parts of the calls above, used in the proofs *)

(** The status after [WriteHeader(code)]. *)
Definition first_status (s : option Z) (code : Z) : option Z :=
  match s with Some c => Some c | None => Some code end.

(** What [FormFile] returns once the form is there. *)
Definition opened (env : Env) (key : string) (form : option Form)
  : result (list byte * FileHeader) :=
  match first_file key form with
  | Some fh =>
      match Open_fault env with
      | Some e => Err e
      | None => Ok (content fh, fh)
      end
  | None => Err ErrMissingFile
  end.

(** ** Sample data *)

Definition sampleRuntime : Runtime :=
  {| Time_String := fun t => "2024-06-01 12:00:00." +:+ pretty t +:+ " +0000 UTC";
     Duration_String := fun d => pretty d +:+ "ns" |}.

(** A clock that advances by one at each reading, and no I/O failure. *)
Definition calm : Env :=
  {| clock := fun n => 1000 + Z.of_nat n;
     Open_fault := None; Stat_fault := None; Mkdir_fault := None;
     Create_fault := None; Copy_fault := None |}.

(** The disk fills up after four bytes of the copy. *)
Definition disk_full : Env :=
  {| clock := fun n => 1000 + Z.of_nat n;
     Open_fault := None; Stat_fault := None; Mkdir_fault := None;
     Create_fault := None;
     Copy_fault := Some (4%nat, PathError "write" "uploads" "no space left on device") |}.

Definition ten_bytes : list byte := [x30; x31; x32; x33; x34; x35; x36; x37; x38; x39].

Definition one_file (key name : string) (data : list byte) : Form :=
  {| Value := ∅;
     Files := {[ key := [ {| Filename := name; Size := Z.of_nat (length data);
                             content := data |} ] ]} |}.

Definition post (key name : string) (data : list byte) : Request :=
  {| Method := MethodPost; URL_Path := "/upload"; Body := Ok (one_file key name data) |}.

(** A POST whose form has a value field and no file. *)
Definition post_no_file : Request :=
  {| Method := MethodPost; URL_Path := "/upload";
     Body := Ok {| Value := {[ "comment" := ["hello"] ]}; Files := ∅ |} |}.

(** Requests that carry no multipart body at all. *)
Definition bare (method : string) : Request :=
  {| Method := method; URL_Path := "/upload"; Body := Err ErrNotMultipart |}.

Definition empty_world : World := {| disk := ∅; reads := 0; console := [] |}.

(** A clock too coarse to tell two requests apart. *)
Definition frozen : Env :=
  {| clock := fun _ => 1000;
     Open_fault := None; Stat_fault := None; Mkdir_fault := None;
     Create_fault := None; Copy_fault := None |}.

Definition port_in_use (addr : string) : option error :=
  Some (errors_New ("listen tcp " ++ addr ++ ": bind: address already in use")).

(** [main] of each copy, the address it listens on and its first line of
    output. *)
Definition main_of `{Runtime} (v : variant) : (string -> option error) -> Process :=
  match v with
  | Plain => Backend.main
  | CORS => Cors.main
  end.

Definition addr (v : variant) : string :=
  match v with
  | Plain => ":8080"
  | CORS => ":8085"
  end.

Definition started (v : variant) : string :=
  match v with
  | Plain => "Server started at http://localhost:8080" ++ LF
  | CORS => "Server started at http://localhost:8085" ++ LF
  end.

(** The requests each copy takes as far as the parse of the form: the CORS
    copy every request but an OPTIONS pre-flight, the plain copy a POST. *)
Definition parsed_by (v : variant) (request : Request) : bool :=
  match v with
  | Plain => String.eqb (Method request) MethodPost
  | CORS => negb (String.eqb (Method request) MethodOptions)
  end.

(** The calls a POST starts with in each copy, up to the parse of the form,
    and the body each copy answers a form that does not parse with. *)
Definition parse_steps (v : variant) : list Event :=
  match v with
  | Plain => [EvFormFile "file"; EvParseMultipartForm (Z.shiftl 32 20)]
  | CORS => [EvParseMultipartForm (Z.shiftl 32 20)]
  end.

Definition parse_failure_body (v : variant) : string :=
  match v with
  | Plain => "Unable to get file from form" ++ LF ++ LF
  | CORS => "Could not parse form" ++ LF
  end.

(** The three CORS headers of the second main.go. *)
Definition cors_map (h : gmap string (list string)) : Prop :=
  h !! "Access-Control-Allow-Origin" = Some ["*"]
  /\ h !! "Access-Control-Allow-Methods" = Some ["POST"]
  /\ h !! "Access-Control-Allow-Headers" = Some ["Content-Type"].

Definition cors_headers (w : ResponseWriter) : Prop := cors_map (Header w).

(** The disk [f] is [f0] but for location [tgt], and for the upload
    directory where it was made. *)
Definition extends (tgt : fpath) (f0 f : gmap fpath node) : Prop :=
  forall p, p <> tgt ->
    f !! p = f0 !! p \/ (p = uploads /\ f !! p = Some Directory).

(** ** The claims as the specification words them, where the code differs *)

(** "Exactly one new file appears in the upload directory": the listing
    after is the listing before and one name that was not there. *)
Definition one_new_file (d : fpath) (before after : gmap fpath node) : Prop :=
  exists p data,
    files_in d before !! p = None /\
    files_in d after = <[p := data]> (files_in d before).

(** "The process does not exit": [main] ends in no exit status. *)
Definition stays_up (p : Process) : Prop := forall code, exit p <> Exited code.

(** ** What else a run shows *)

(** What a client and an operator can see of a run. *)
Definition observe (st : State) : ResponseWriter * gmap fpath node * list Event * list string * nat :=
  (response st, fs st, trace st, stdout st, ticks st).

(** The headers [http.Error] leaves on a response. *)
Definition error_headers (w : ResponseWriter) : Prop :=
  Header w !! "Content-Type" = Some ["text/plain; charset=utf-8"]
  /\ Header w !! "X-Content-Type-Options" = Some ["nosniff"].

(** The line each copy prints after a request it did not return from early:
    [first] is the reading at the handler's start, [last] the index of the
    reading taken for [checkpoint]. *)
Definition timing_line `{Runtime} (v : variant) (env : Env) (first last : nat) : string :=
  match v with
  | Plain =>
      "Saved to file in: " ++ Duration_String (clock env last - clock env first) ++ LF
  | CORS =>
      "Saved to file @ " ++ Time_String (clock env (S last)) ++ LF ++ TAB ++ "Saved in: "
      ++ Duration_String (clock env last - clock env first) ++ LF
  end.

(** The CORS copy's short cut: an OPTIONS request. *)
Definition preflight (v : variant) (request : Request) : bool :=
  match v with
  | Plain => false
  | CORS => String.eqb (Method request) MethodOptions
  end.

(** How many times a successful upload reads the clock. *)
Definition clock_reads (v : variant) : nat :=
  match v with
  | Plain => 3
  | CORS => 4
  end.

(** ** The browser script that posts the forms *)

Module Frontend.

(** How a promise settles. *)
Inductive settled (A : Type) : Type :=
  | Fulfilled (a : A)
  | Rejected (reason : string).
Arguments Fulfilled {A} a.
Arguments Rejected {A} reason.

(** What [fetch] resolves to: the status line, and what [response.text()]
    settles to. *)
Record Response : Type := {
  status : Z;
  statusText : string;
  text : settled string
}.

(** The operands of [console.log] and [console.error]. *)
Inductive value : Type :=
  | Str (s : string)
  | Element (id : string)
  | ResponseObj (response : Response)
  | ErrorObj (reason : string).

(** What the script does to the page and the network, in order. A submit
    listener is the run of its body, given how the [fetch] inside settles. *)
#[warnings="-register-all"]
Inductive effect : Type :=
  | console_log (args : list value)
  | console_error (args : list value)
  | addEventListener (target type : string)
      (listener : settled Response -> list effect)
  | preventDefault
  | fetch (url method form : string)
  | alert (message : string)
  | reset (form : string).

(** The document: the ids of its elements. *)
Definition getElementById (document : gset string) (id : string) : option string :=
  if decide (id ∈ document) then Some id else None.

Definition handleImageUploadForm (document : gset string) (formId : string) : list effect :=
  console_log [Str "Form handler initialized"] ::
  let imageURL := "https://www.katyacaleb.com:8085/uploadimage" in
  match getElementById document formId with
  | None => [console_error [Str "Form not found! Check the form ID."]]
  | Some imageForm =>
      [ console_log [Str "Form found:"; Element imageForm];
        addEventListener imageForm "submit" (fun network =>
          let catch error :=
            [ console_error [Str "Error uploading image:"; ErrorObj error];
              alert "An error occurred while uploading the image." ] in
          preventDefault ::
          console_log [Str "Form submission intercepted"] ::
          console_log [Str "Sending image to server..."] ::
          fetch imageURL "POST" imageForm ::
          match network with
          | Rejected error => catch error
          | Fulfilled response =>
              console_log [Str "Response received:"; ResponseObj response] ::
              if status response =? 200 then
                match text response with
                | Fulfilled result => [alert ("Success: " ++ result)]
                | Rejected error => catch error
                end
              else if status response =? 400 then
                [alert ("Bad Request: " ++ statusText response)]
              else if status response =? 500 then
                [alert ("Server Error: " ++ statusText response)]
              else
                [alert ("Unexpected response code: " ++ pretty (status response))]
          end) ]
  end.

Definition handleSongUploadForm (document : gset string) (formId : string) : list effect :=
  console_log [Str "Song handler initialized"] ::
  let songURL := "https://www.katyacaleb.com:8085/uploadsong" in
  match getElementById document formId with
  | None => [console_error [Str "Form not found! Check the form ID."]]
  | Some songForm =>
      [ console_log [Str "Form found:"; Element songForm];
        addEventListener songForm "submit" (fun network =>
          let catch error :=
            [ console_error [Str "Error uploading song:"; ErrorObj error];
              alert "An error occurred while uploading the song information." ] in
          preventDefault ::
          console_log [Str "Form submission intercepted"] ::
          console_log [Str "Sending song data to server..."] ::
          fetch songURL "POST" songForm ::
          match network with
          | Rejected error => catch error
          | Fulfilled response =>
              console_log [Str "Response received:"; ResponseObj response] ::
              if status response =? 200 then
                match text response with
                | Fulfilled result => [alert ("Success: " ++ result)]
                | Rejected error => catch error
                end
              else if status response =? 400 then
                [alert ("Bad Request: " ++ statusText response)]
              else if status response =? 500 then
                [alert ("Server Error: " ++ statusText response)]
              else
                [alert ("Unexpected response code: " ++ pretty (status response))]
          end) ]
  end.

Definition handleRSVPUploadForm (document : gset string) (formId : string) : list effect :=
  console_log [Str "RSVP handler initialized"] ::
  let rsvpURL := "https://www.katyacaleb.com:8085/uploadrsvp" in
  match getElementById document formId with
  | None => [console_error [Str "Form not found! Check the form ID."]]
  | Some rsvpForm =>
      [ console_log [Str "Form found:"; Element rsvpForm];
        addEventListener rsvpForm "submit" (fun network =>
          let catch error :=
            [ console_error [Str "Error submitting RSVP:"; ErrorObj error];
              alert "An error occurred while submitting your RSVP. Please try again later." ] in
          preventDefault ::
          console_log [Str "Form submission intercepted"] ::
          console_log [Str "Sending RSVP data to server..."] ::
          fetch rsvpURL "POST" rsvpForm ::
          match network with
          | Rejected error => catch error
          | Fulfilled response =>
              console_log [Str "Response received:"; ResponseObj response] ::
              if status response =? 200 then
                match text response with
                | Fulfilled result => [alert ("Success: " ++ result); reset rsvpForm]
                | Rejected error => catch error
                end
              else if status response =? 400 then
                [alert "Bad Request: Please check that all fields are filled out correctly"]
              else if status response =? 500 then
                [alert ("Server Error: " ++ statusText response)]
              else
                [alert ("Unexpected response code: " ++ pretty (status response))]
          end) ]
  end.

(** The listener the script registers for [DOMContentLoaded]. *)
Definition DOMContentLoaded (document : gset string) : list effect :=
  (match getElementById document "image-upload-form" with
    | Some _ => handleImageUploadForm document "image-upload-form"
    | None => []
    end ++
   match getElementById document "song-upload-form" with
    | Some _ => handleSongUploadForm document "song-upload-form"
    | None => []
    end ++
   match getElementById document "rsvp-upload-form" with
    | Some _ => handleRSVPUploadForm document "rsvp-upload-form"
    | None => []
    end)%list.

(** The three forms, to speak of their handlers together. *)
Inductive form_kind : Type :=
  | Image
  | Song
  | RSVP.

Definition handlerOf (k : form_kind) : gset string -> string -> list effect :=
  match k with
  | Image => handleImageUploadForm
  | Song => handleSongUploadForm
  | RSVP => handleRSVPUploadForm
  end.

Definition urlOf (k : form_kind) : string :=
  match k with
  | Image => "https://www.katyacaleb.com:8085/uploadimage"
  | Song => "https://www.katyacaleb.com:8085/uploadsong"
  | RSVP => "https://www.katyacaleb.com:8085/uploadrsvp"
  end.

Definition idOf (k : form_kind) : string :=
  match k with
  | Image => "image-upload-form"
  | Song => "song-upload-form"
  | RSVP => "rsvp-upload-form"
  end.

(** The listeners a run registered on [target] for events of [type]. *)
Fixpoint listeners_on (target type : string) (effects : list effect)
  : list (settled Response -> list effect) :=
  match effects with
  | [] => []
  | addEventListener t ty l :: rest =>
      if String.eqb t target && String.eqb ty type
      then l :: listeners_on target type rest
      else listeners_on target type rest
  | _ :: rest => listeners_on target type rest
  end.

(** A submit event on [target] after the script ran: every listener on it
    runs. *)
Definition submit (page : list effect) (target : string) (network : settled Response)
  : list effect :=
  flat_map (fun l => l network) (listeners_on target "submit" page).

Definition alerts (effects : list effect) : list string :=
  omap (fun e => match e with alert m => Some m | _ => None end) effects.

Definition fetches (effects : list effect) : list (string * string * string) :=
  omap (fun e => match e with fetch u m f => Some (u, m, f) | _ => None end) effects.

Definition errors (effects : list effect) : list (list value) :=
  omap (fun e => match e with console_error a => Some a | _ => None end) effects.

Definition resets (effects : list effect) : list string :=
  omap (fun e => match e with reset f => Some f | _ => None end) effects.

End Frontend.

(** ** More sample data *)

(** The working directory refuses a new directory; the upload directory
    refuses a new file. *)
Definition mkdir_denied : Env :=
  {| clock := fun n => 1000 + Z.of_nat n;
     Open_fault := None; Stat_fault := None;
     Mkdir_fault := Some (PathError "mkdir" "./uploads" "permission denied");
     Create_fault := None; Copy_fault := None |}.

Definition create_denied : Env :=
  {| clock := fun n => 1000 + Z.of_nat n;
     Open_fault := None; Stat_fault := None; Mkdir_fault := None;
     Create_fault := Some (PathError "open" "uploads" "permission denied");
     Copy_fault := None |}.

(** A disk where [uploads] is a regular file, and one where it is the
    directory already. *)
Definition uploads_is_file : World :=
  {| disk := {[ (false, ["uploads"]) := Regular [] ]}; reads := 0; console := [] |}.

Definition uploads_ready : World :=
  {| disk := {[ (false, ["uploads"]) := Directory ]}; reads := 0; console := [] |}.

(** A page that holds the RSVP form only, and answers the script may get. *)
Definition rsvp_page : gset string := {[ "rsvp-upload-form" ]}.

Definition not_found : Frontend.Response :=
  {| Frontend.status := 404; Frontend.statusText := "Not Found";
     Frontend.text := Frontend.Fulfilled "404 page not found" |}.

Definition accepted : Frontend.Response :=
  {| Frontend.status := 200; Frontend.statusText := "OK";
     Frontend.text := Frontend.Fulfilled "File successfully uploaded" |}.

(** * Properties *)

Arguments first_file : simpl never.
Arguments lookup_node : simpl never.
Arguments resolve : simpl never.
Arguments filepath_Join : simpl never.
Arguments files_in : simpl never.

(** ** Running the code one call at a time

    Each lemma below runs one library call on a state written out in full
    and hands its result to the rest of the handler. *)

Abbreviation mkRW := Build_ResponseWriter.
Abbreviation mkSt := Build_State.

Lemma bind_assoc {A B C} (m : Handler A) (f : A -> Handler B) (g : B -> Handler C) st :
  bind (bind m f) g st = bind m (fun a => bind (f a) g) st.
Proof. unfold bind. by destruct (m st) as [[a|] st']. Qed.

Lemma bind_ret {A B} (a : A) (k : A -> Handler B) st : bind (ret a) k st = k a st.
Proof. reflexivity. Qed.

Lemma bind_return {A B} (k : A -> Handler B) st : bind return_ k st = (Returned, st).
Proof. reflexivity. Qed.

Lemma bind_modify {B} f (k : unit -> Handler B) st : bind (modify f) k st = k tt (f st).
Proof. reflexivity. Qed.

Lemma bind_time_Now {B} env (k : Z -> Handler B) r mf f n o t :
  bind (time_Now env) k (mkSt r mf f n o t) = k (clock env n) (mkSt r mf f (S n) o t).
Proof. reflexivity. Qed.

Lemma bind_Header_Set {B} key value (k : unit -> Handler B) h s b mf f n o t :
  bind (Header_Set key value) k (mkSt (mkRW h s b) mf f n o t)
  = k tt (mkSt (mkRW (<[key := [value]]> h) s b) mf f n o t).
Proof. reflexivity. Qed.

Lemma bind_WriteHeader {B} code (k : unit -> Handler B) h s b mf f n o t :
  bind (WriteHeader code) k (mkSt (mkRW h s b) mf f n o t)
  = k tt (mkSt (mkRW h (first_status s code) b) mf f n o t).
Proof. reflexivity. Qed.

Lemma bind_http_Error {B} text code (k : unit -> Handler B) h s b mf f n o t :
  bind (http_Error text code) k (mkSt (mkRW h s b) mf f n o t)
  = k tt (mkSt (mkRW
                  (<["X-Content-Type-Options" := ["nosniff"]]>
                     (<["Content-Type" := ["text/plain; charset=utf-8"]]>
                        (delete "Content-Length" h)))
                  (first_status s code) (b ++ (text ++ LF)))
            mf f n o t).
Proof. by destruct s. Qed.

Lemma run_fmt_Fprintf text h s b mf f n o t :
  fmt_Fprintf text (mkSt (mkRW h s b) mf f n o t)
  = (Next tt, mkSt (mkRW h (first_status s StatusOK) (b ++ text)) mf f n o t).
Proof. by destruct s. Qed.

Lemma bind_fmt_Fprintf {B} text (k : unit -> Handler B) h s b mf f n o t :
  bind (fmt_Fprintf text) k (mkSt (mkRW h s b) mf f n o t)
  = k tt (mkSt (mkRW h (first_status s StatusOK) (b ++ text)) mf f n o t).
Proof. unfold bind at 1. by rewrite run_fmt_Fprintf. Qed.

Lemma run_fmt_Print text r mf f n o t :
  fmt_Print text (mkSt r mf f n o t) = (Next tt, mkSt r mf f n (o ++ [text]) t).
Proof. reflexivity. Qed.

Lemma bind_ParseMultipartForm {B} request maxMemory (k : option error -> Handler B)
    r mf f n o t :
  bind (ParseMultipartForm request maxMemory) k (mkSt r mf f n o t)
  = match mf with
    | Some _ => k None (mkSt r mf f n o (t ++ [EvParseMultipartForm maxMemory]))
    | None =>
        match Body request with
        | Ok form =>
            k None (mkSt r (Some form) f n o (t ++ [EvParseMultipartForm maxMemory]))
        | Err e =>
            k (Some e) (mkSt r None f n o (t ++ [EvParseMultipartForm maxMemory]))
        end
    end.
Proof. destruct mf; [done|]. unfold bind, ParseMultipartForm, bind, modify. simpl. by destruct (Body request). Qed.

Lemma bind_FormFile {B} env request key
    (k : result (list byte * FileHeader) -> Handler B) r mf f n o t :
  bind (FormFile env request key) k (mkSt r mf f n o t)
  = match mf with
    | Some _ => k (opened env key mf) (mkSt r mf f n o (t ++ [EvFormFile key]))
    | None =>
        match Body request with
        | Ok form =>
            k (opened env key (Some form))
              (mkSt r (Some form) f n o
                 ((t ++ [EvFormFile key]) ++ [EvParseMultipartForm defaultMaxMemory]))
        | Err e =>
            k (Err e)
              (mkSt r None f n o
                 ((t ++ [EvFormFile key]) ++ [EvParseMultipartForm defaultMaxMemory]))
        end
    end.
Proof.
  unfold opened, bind, FormFile, ParseMultipartForm, bind, modify. simpl.
  destruct mf; simpl.
  - destruct (first_file key _); [|done]. by destruct (Open_fault env).
  - destruct (Body request); simpl; [|done].
    destruct (first_file key _); [|done]. by destruct (Open_fault env).
Qed.

Lemma bind_os_Stat {B} env name (k : result node -> Handler B) r mf f n o t :
  bind (os_Stat env name) k (mkSt r mf f n o t)
  = match Stat_fault env with
    | Some e => k (Err e) (mkSt r mf f n o (t ++ [EvStat name]))
    | None =>
        match lookup_node f (resolve name) with
        | Some nd => k (Ok nd) (mkSt r mf f n o (t ++ [EvStat name]))
        | None => k (Err (ErrNotExist "stat" name)) (mkSt r mf f n o (t ++ [EvStat name]))
        end
    end.
Proof.
  unfold bind, os_Stat, bind, modify. simpl.
  destruct (Stat_fault env); [done|]. by destruct (lookup_node f (resolve name)).
Qed.

Lemma bind_os_Mkdir {B} env name perm (k : option error -> Handler B) r mf f n o t :
  bind (os_Mkdir env name perm) k (mkSt r mf f n o t)
  = match Mkdir_fault env with
    | Some e => k (Some e) (mkSt r mf f n o (t ++ [EvMkdir name perm]))
    | None =>
        match lookup_node f (resolve name) with
        | Some _ =>
            k (Some (ErrExist "mkdir" name)) (mkSt r mf f n o (t ++ [EvMkdir name perm]))
        | None =>
            match lookup_node f (parent (resolve name)) with
            | Some Directory =>
                k None (mkSt r mf (<[resolve name := Directory]> f) n o
                          (t ++ [EvMkdir name perm]))
            | Some (Regular _) =>
                k (Some (PathError "mkdir" name "not a directory"))
                  (mkSt r mf f n o (t ++ [EvMkdir name perm]))
            | None =>
                k (Some (ErrNotExist "mkdir" name))
                  (mkSt r mf f n o (t ++ [EvMkdir name perm]))
            end
        end
    end.
Proof.
  unfold bind, os_Mkdir, bind, modify. simpl.
  destruct (Mkdir_fault env); [done|].
  destruct (lookup_node f (resolve name)); [done|].
  by destruct (lookup_node f (parent (resolve name))) as [[]|].
Qed.

Lemma bind_os_Create {B} env name (k : result fpath -> Handler B) r mf f n o t :
  bind (os_Create env name) k (mkSt r mf f n o t)
  = match Create_fault env with
    | Some e => k (Err e) (mkSt r mf f n o (t ++ [EvCreate name]))
    | None =>
        match lookup_node f (resolve name) with
        | Some Directory =>
            k (Err (PathError "open" name "is a directory"))
              (mkSt r mf f n o (t ++ [EvCreate name]))
        | _ =>
            match lookup_node f (parent (resolve name)) with
            | Some Directory =>
                k (Ok (resolve name))
                  (mkSt r mf (<[resolve name := Regular []]> f) n o
                     (t ++ [EvCreate name]))
            | Some (Regular _) =>
                k (Err (PathError "open" name "not a directory"))
                  (mkSt r mf f n o (t ++ [EvCreate name]))
            | None =>
                k (Err (ErrNotExist "open" name)) (mkSt r mf f n o (t ++ [EvCreate name]))
            end
        end
    end.
Proof.
  unfold bind, os_Create, bind, modify. simpl.
  destruct (Create_fault env); [done|].
  destruct (lookup_node f (resolve name)) as [[]|]; [done|..];
    by destruct (lookup_node f (parent (resolve name))) as [[]|].
Qed.

Lemma bind_io_Copy {B} env dst src (k : result Z -> Handler B) r mf f n o t :
  bind (io_Copy env dst src) k (mkSt r mf f n o t)
  = match Copy_fault env with
    | Some (m, e) =>
        k (Err e) (mkSt r mf (<[dst := Regular (take m src)]> f) n o
                     (t ++ [EvCopy dst (length (take m src))]))
    | None =>
        k (Ok (Z.of_nat (length src)))
          (mkSt r mf (<[dst := Regular src]> f) n o (t ++ [EvCopy dst (length src)]))
    end.
Proof. unfold bind, io_Copy. by destruct (Copy_fault env) as [[m e]|]. Qed.

Lemma IsNotExist_Ok {A} (a : A) : os_IsNotExist (err_of (Ok a)) = false.
Proof. reflexivity. Qed.

Lemma IsNotExist_stat op name : os_IsNotExist (err_of (@Err node (ErrNotExist op name))) = true.
Proof. reflexivity. Qed.

Lemma split_sep_plain s : contains_sep s = false -> split_sep s = [s].
Proof.
  induction s as [|c s IH]; simpl; [done|].
  destruct (Ascii.eqb c Separator); simpl; [done|].
  intros Hs. by rewrite IH.
Qed.

Lemma plain_name_spec s :
  plain_name s = true ->
  contains_sep s = false /\ String.eqb s "" = false
  /\ String.eqb s "." = false /\ String.eqb s ".." = false.
Proof.
  unfold plain_name. rewrite !andb_true_iff, !negb_true_iff. tauto.
Qed.

Lemma resolve_uploadPath : resolve "./uploads" = (false, ["uploads"]).
Proof. reflexivity. Qed.

(** Joining the upload directory and a plain name puts the name directly
    under ["uploads"]. *)
Lemma split_sep_nonempty s : split_sep s <> [].
Proof.
  destruct s as [|c s]; simpl; [done|].
  destruct (Ascii.eqb c Separator); [done|]. by destruct (split_sep s).
Qed.

Lemma split_sep_uploads pre s :
  contains_sep s = false ->
  split_sep (pre ++ "uploads/" ++ s) = (split_sep (pre ++ "uploads") ++ [s])%list.
Proof.
  intros Hs. induction pre as [|c pre IH]; simpl.
  - change (String.append EmptyString s) with s. by rewrite (split_sep_plain s Hs).
  - rewrite IH. destruct (Ascii.eqb c Separator); [done|].
    pose proof (split_sep_nonempty (pre ++ "uploads")) as Hne.
    by destruct (split_sep (pre ++ "uploads")).
Qed.

Lemma Join_uploads_plain s :
  plain_name s = true -> filepath_Join ["./uploads"; s] = "uploads/" ++ s.
Proof.
  intros (Hsep & He & Hd & Hdd)%plain_name_spec.
  change (filepath_Join ["./uploads"; s]) with (filepath_Clean ("./uploads/" ++ s)).
  unfold filepath_Clean.
  change (IsAbs ("./uploads/" ++ s)) with false.
  change (String.eqb ("./uploads/" ++ s) "") with false. cbv iota.
  change ("./uploads/" ++ s) with ("./" ++ "uploads/" ++ s).
  rewrite (split_sep_uploads "./" s Hsep). simpl.
  by rewrite He, Hd, Hdd.
Qed.

Lemma resolve_under_uploads s :
  plain_name s = true -> resolve ("uploads/" ++ s) = (false, ["uploads"; s]).
Proof.
  intros (Hsep & He & Hd & Hdd)%plain_name_spec.
  unfold resolve. change (IsAbs ("uploads/" ++ s)) with false.
  change ("uploads/" ++ s) with ("" ++ "uploads/" ++ s).
  rewrite (split_sep_uploads "" s Hsep). simpl.
  by rewrite He, Hd, Hdd.
Qed.

Lemma resolve_Join_uploads s :
  plain_name s = true ->
  resolve (filepath_Join ["./uploads"; s]) = (false, ["uploads"; s]).
Proof.
  intros Hs. rewrite Join_uploads_plain by done. by apply resolve_under_uploads.
Qed.

Lemma files_in_lookup (d : fpath) (f : gmap fpath node) (p : fpath) :
  files_in d f !! p = if file_in d p then f !! p ≫= data_of else None.
Proof.
  unfold files_in. rewrite lookup_omap, map_lookup_filter.
  destruct (f !! p) as [n|] eqn:Hp; simpl.
  - destruct (file_in d p) eqn:Hd.
    + rewrite option_guard_True by done. done.
    + rewrite option_guard_False by (simpl; congruence). done.
  - by destruct (file_in d p).
Qed.

Lemma files_in_insert_file (d : fpath) (f : gmap fpath node) (p : fpath) data :
  file_in d p = true ->
  files_in d (<[p := Regular data]> f) = <[p := data]> (files_in d f).
Proof.
  intros Hp. apply map_eq. intros q. rewrite files_in_lookup.
  destruct (decide (p = q)) as [->|Hne].
  - by rewrite Hp, !lookup_insert_eq.
  - by rewrite !lookup_insert_ne, files_in_lookup by done.
Qed.

Lemma files_in_insert_dir (d : fpath) (f : gmap fpath node) (p : fpath) :
  f !! p = None ->
  files_in d (<[p := Directory]> f) = files_in d f.
Proof.
  intros Hp. apply map_eq. intros q. rewrite !files_in_lookup.
  destruct (decide (p = q)) as [->|Hne].
  - rewrite lookup_insert_eq, Hp. by destruct (file_in d q).
  - by rewrite lookup_insert_ne by done.
Qed.

Lemma file_in_uploads s : file_in uploads (false, ["uploads"; s]) = true.
Proof. reflexivity. Qed.


(** Where the handler looks on disk. *)
Lemma lookup_node_uploads (f : gmap fpath node) :
  lookup_node f (resolve "./uploads") = f !! uploads.
Proof. reflexivity. Qed.

Lemma lookup_node_cwd (f : gmap fpath node) :
  lookup_node f (parent (resolve "./uploads")) = Some Directory.
Proof. reflexivity. Qed.

Lemma lookup_node_target (f : gmap fpath node) s :
  plain_name s = true ->
  lookup_node f (resolve (filepath_Join ["./uploads"; s])) = f !! (false, ["uploads"; s]).
Proof. intros Hs. by rewrite resolve_Join_uploads. Qed.

Lemma lookup_node_target_parent (f : gmap fpath node) s :
  plain_name s = true ->
  lookup_node f (parent (resolve (filepath_Join ["./uploads"; s]))) = f !! uploads.
Proof. intros Hs. by rewrite resolve_Join_uploads. Qed.

Lemma lookup_mkdir_target (f : gmap fpath node) s :
  <[resolve "./uploads" := Directory]> f !! (false, ["uploads"; s])
  = f !! (false, ["uploads"; s]).
Proof. by rewrite lookup_insert_ne. Qed.

Lemma lookup_mkdir_uploads (f : gmap fpath node) :
  <[resolve "./uploads" := Directory]> f !! uploads = Some Directory.
Proof. apply lookup_insert_eq. Qed.

Ltac norm_fs :=
  progress
    (rewrite ?lookup_node_cwd, ?lookup_node_uploads;
     try match goal with
         | Hp : plain_name ?s = true |- _ =>
             rewrite ?(lookup_node_target _ s Hp), ?(lookup_node_target_parent _ s Hp)
         end;
     rewrite ?lookup_mkdir_uploads, ?lookup_mkdir_target).

(** Decide a test of the code: by a fact at hand, else both ways. *)
Ltac case_atom x :=
  first [ match goal with Hx : x = _ |- _ => rewrite Hx end
        | destruct x eqn:? ].

(** One step of the run [snd (m st)] the goal speaks of. *)
Ltac exec_step :=
  lazymatch goal with
  | |- context [snd (bind ?m ?k ?st)] =>
      lazymatch m with
      | bind _ _ => rewrite (bind_assoc _ _ k st)
      | ret _ => rewrite (bind_ret _ k st)
      | return_ => rewrite (bind_return k st)
      | time_Now _ => rewrite bind_time_Now
      | Header_Set _ _ => rewrite bind_Header_Set
      | WriteHeader _ => rewrite bind_WriteHeader
      | http_Error _ _ => rewrite bind_http_Error
      | fmt_Fprintf _ => rewrite bind_fmt_Fprintf
      | ParseMultipartForm _ _ => rewrite bind_ParseMultipartForm
      | FormFile _ _ _ => rewrite bind_FormFile
      | os_Stat _ _ => rewrite bind_os_Stat
      | os_Mkdir _ _ _ => rewrite bind_os_Mkdir
      | os_Create _ _ => rewrite bind_os_Create
      | io_Copy _ _ _ => rewrite bind_io_Copy
      | (if os_IsNotExist (err_of (Ok _)) then _ else _) => rewrite IsNotExist_Ok
      | (if os_IsNotExist (err_of (Err (ErrNotExist _ _))) then _ else _) =>
          rewrite IsNotExist_stat
      | (if ?b then _ else _) => case_atom b
      | (match ?x with _ => _ end) => case_atom x
      end
  | |- context [snd (fmt_Fprintf _ _)] => rewrite run_fmt_Fprintf
  | |- context [snd (fmt_Print _ _)] => rewrite run_fmt_Print
  | |- context [snd (match lookup_node ?f ?p with _ => _ end)] =>
      first [ norm_fs | case_atom (lookup_node f p) ]
  | |- context [snd (match <[?i := ?x]> ?f !! ?p with _ => _ end)] =>
      first [ norm_fs | case_atom (<[i := x]> f !! p) ]
  | |- context [snd (match ?x with _ => _ end)] => case_atom x
  end;
  cbv beta iota.

Ltac exec :=
  unfold run, serve, enter, handler, Backend.uploadHandler, Cors.uploadHandler,
    Backend.uploadPath, Cors.uploadPath;
  repeat exec_step; cbn [snd].

Ltac leaf :=
  intros <-; cbn [response fs trace stdout ticks MultipartForm Header status body].

Lemma eqb_Method request m m' :
  Method request = m -> String.eqb (Method request) m' = String.eqb m m'.
Proof. by intros ->. Qed.

Section Properties.
Context `{Runtime}.

Lemma run_out (v : variant) env request w (Phi : State -> Prop) :
  (forall out, run v env request w = out -> Phi out) -> Phi (run v env request w).
Proof. intros HP. by apply HP. Qed.

Lemma cors_map_set :
  cors_map (<["Access-Control-Allow-Headers" := ["Content-Type"]]>
              (<["Access-Control-Allow-Methods" := ["POST"]]>
                 (<["Access-Control-Allow-Origin" := ["*"]]> ∅))).
Proof.
  unfold cors_map. split_and!.
  - by rewrite !lookup_insert_ne, lookup_insert_eq by done.
  - by rewrite lookup_insert_ne, lookup_insert_eq by done.
  - by rewrite lookup_insert_eq.
Qed.

Lemma cors_map_Error h :
  cors_map h ->
  cors_map (<["X-Content-Type-Options" := ["nosniff"]]>
              (<["Content-Type" := ["text/plain; charset=utf-8"]]>
                 (delete "Content-Length" h))).
Proof.
  unfold cors_map. intros (H1 & H2 & H3).
  by rewrite !lookup_insert_ne, !lookup_delete_ne by done.
Qed.

Ltac cors_leaf :=
  unfold cors_headers; cbn [Header];
  lazymatch goal with
  | |- cors_map (<["X-Content-Type-Options" := _]> _) =>
      apply cors_map_Error, cors_map_set
  | |- _ => apply cors_map_set
  end.

(** C7. In the CORS copy an OPTIONS request is answered with status 200
    (written by [WriteHeader]), an empty body and the three CORS headers; the
    run makes no library call after the headers are set, so the disk is as it
    was and nothing is printed. *)
Theorem C7_options_preflight (env : Env) (request : Request) (w : World) :
  Method request = MethodOptions ->
  let out := run CORS env request w in
  status (response out) = Some StatusOK
  /\ StatusCode (response out) = 200
  /\ body (response out) = ""
  /\ cors_headers (response out)
  /\ trace out = []
  /\ fs out = disk w
  /\ stdout out = console w.
Proof.
  intros HM out. subst out.
  pose proof (eqb_Method request _ MethodOptions HM) as HO.
  change (String.eqb MethodOptions MethodOptions) with true in HO.
  apply run_out. intros out. exec. leaf.
  split_and!; [done|done|done|cors_leaf|done|done|done].
Qed.

(** C9. In the CORS copy every response, whatever the method, the body and
    the failures met on the way, carries the three CORS headers: they are set
    before any branch, and [http.Error] touches other keys only. *)
Theorem C9_cors_headers_on_every_response (env : Env) (request : Request) (w : World) :
  cors_headers (response (run CORS env request w)).
Proof.
  apply run_out. intros out. exec.
  all: leaf; cors_leaf.
Qed.

Lemma files_in_after_mkdir (f : gmap fpath node) :
  f !! uploads = None ->
  files_in uploads (<[resolve "./uploads" := Directory]> f) = files_in uploads f.
Proof. apply files_in_insert_dir. Qed.

(** C1 (amended). A POST that carries the file field, met by no failure (no
    I/O error, ["./uploads"] a directory or absent, the timestamp name not
    taken by a directory), is answered 200 with the body
    ["File successfully uploaded\n"], and afterwards the file named by the
    timestamp holds exactly the bytes sent. The listing of the upload
    directory is the one before with that name set to those bytes: one new
    file when the name was free, the old file written over when it was not. *)
Theorem C1_upload_stored (v : variant) (env : Env) (request : Request) (w : World)
    (fh : FileHeader) :
  Method request = MethodPost ->
  first_file (field v) (form_of request) = Some fh ->
  no_fault env -> Copy_fault env = None ->
  plain_name (Time_String (stamp env w)) = true ->
  (disk w !! uploads = None \/ disk w !! uploads = Some Directory) ->
  disk w !! stored env w <> Some Directory ->
  let out := run v env request w in
  StatusCode (response out) = 200
  /\ body (response out) = "File successfully uploaded" ++ LF
  /\ fs out !! stored env w = Some (Regular (content fh))
  /\ files_in uploads (fs out) = <[stored env w := content fh]> (files_in uploads (disk w))
  /\ (files_in uploads (disk w) !! stored env w = None ->
      one_new_file uploads (disk w) (fs out)).
Proof.
  intros HM Hff (HfO & HfS & HfM & HfC) HfY Hplain Hdir Htgt out. subst out.
  pose proof (eqb_Method request _ MethodPost HM) as HP.
  pose proof (eqb_Method request _ MethodOptions HM) as HO.
  change (String.eqb MethodPost MethodPost) with true in HP.
  change (String.eqb MethodPost MethodOptions) with false in HO.
  unfold form_of in Hff. destruct (Body request) as [form|e] eqn:HB; [|done].
  assert (Hop : opened env (field v) (Some form) = Ok (content fh, fh)).
  { unfold opened. by rewrite Hff, HfO. }
  unfold stored, stamp in *.
  assert (Hnew : forall f : gmap fpath node,
    files_in uploads f = <[(false, ["uploads"; Time_String (clock env (S (reads w)))])
                           := content fh]> (files_in uploads (disk w)) ->
    files_in uploads (disk w) !! (false, ["uploads"; Time_String (clock env (S (reads w)))])
      = None ->
    one_new_file uploads (disk w) f).
  { intros f Hf Hn. by exists (false, ["uploads"; Time_String (clock env (S (reads w)))]),
      (content fh). }
  apply run_out. intros out.
  destruct v; cbn [field] in Hop; destruct Hdir as [Hd|Hd]; exec;
    try (match goal with
         | Hx : disk w !! (false, ["uploads"; _]) = Some Directory |- _ =>
             destruct (Htgt Hx)
         end).
  all: leaf.
  all: rewrite !(resolve_Join_uploads _ Hplain), insert_insert_eq.
  all: rewrite files_in_insert_file by apply file_in_uploads.
  all: rewrite ?(files_in_after_mkdir _ Hd).
  all: rewrite lookup_insert_eq.
  all: split_and!; [done|done|done|done|].
  all: intros Hn; apply Hnew; [|done].
  all: rewrite files_in_insert_file by apply file_in_uploads.
  all: by rewrite ?(files_in_after_mkdir _ Hd).
Qed.

(** C6. When the copy into the destination file fails part-way, the handler
    answers 500 with the text "Unable to save file" and returns at once: the
    file it created stays on disk, holding the bytes written before the
    failure; the failed copy is the last call of the run, so nothing removes
    the file. *)
Theorem C6_failed_copy_leaves_file (v : variant) (env : Env) (request : Request)
    (w : World) (fh : FileHeader) (n : nat) (e : error) :
  Method request = MethodPost ->
  first_file (field v) (form_of request) = Some fh ->
  no_fault env -> Copy_fault env = Some (n, e) ->
  plain_name (Time_String (stamp env w)) = true ->
  (disk w !! uploads = None \/ disk w !! uploads = Some Directory) ->
  disk w !! stored env w <> Some Directory ->
  let out := run v env request w in
  StatusCode (response out) = 500
  /\ body (response out) = "Unable to save file" ++ LF ++ LF
  /\ fs out !! stored env w = Some (Regular (take n (content fh)))
  /\ files_in uploads (fs out) !! stored env w = Some (take n (content fh))
  /\ last (trace out) = Some (EvCopy (stored env w) (length (take n (content fh)))).
Proof.
  intros HM Hff (HfO & HfS & HfM & HfC) HfY Hplain Hdir Htgt out. subst out.
  pose proof (eqb_Method request _ MethodPost HM) as HP.
  pose proof (eqb_Method request _ MethodOptions HM) as HO.
  change (String.eqb MethodPost MethodPost) with true in HP.
  change (String.eqb MethodPost MethodOptions) with false in HO.
  unfold form_of in Hff. destruct (Body request) as [form|e'] eqn:HB; [|done].
  assert (Hop : opened env (field v) (Some form) = Ok (content fh, fh)).
  { unfold opened. by rewrite Hff, HfO. }
  unfold stored, stamp in *.
  apply run_out. intros out.
  destruct v; cbn [field] in Hop; destruct Hdir as [Hd|Hd]; exec;
    try (match goal with
         | Hx : disk w !! (false, ["uploads"; _]) = Some Directory |- _ =>
             destruct (Htgt Hx)
         end).
  all: leaf.
  all: rewrite !(resolve_Join_uploads _ Hplain), insert_insert_eq.
  all: rewrite files_in_insert_file by apply file_in_uploads.
  all: rewrite !lookup_insert_eq, last_snoc.
  all: by split_and!.
Qed.

(** C3. A POST whose form lacks the file field the handler reads (the form
    parsed without it, or did not parse at all) is answered 400, and the disk
    is as it was. *)
Theorem C3_missing_file_field (v : variant) (env : Env) (request : Request) (w : World) :
  Method request = MethodPost ->
  first_file (field v) (form_of request) = None ->
  let out := run v env request w in
  StatusCode (response out) = 400 /\ fs out = disk w.
Proof.
  intros HM Hff out. subst out.
  pose proof (eqb_Method request _ MethodPost HM) as HP.
  pose proof (eqb_Method request _ MethodOptions HM) as HO.
  change (String.eqb MethodPost MethodPost) with true in HP.
  change (String.eqb MethodPost MethodOptions) with false in HO.
  unfold form_of in Hff.
  apply run_out. intros out.
  destruct (Body request) as [form|e] eqn:HB.
  - assert (Hop : opened env (field v) (Some form) = Err ErrMissingFile).
    { unfold opened. by rewrite Hff. }
    destruct v; cbn [field] in Hop; exec; by leaf.
  - destruct v; exec; by leaf.
Qed.

(** The plain handler answers every method but POST with 405, before any
    library call. *)
Lemma Backend_other_method_405 (env : Env) (request : Request) (w : World) :
  Method request <> MethodPost ->
  let out := run Plain env request w in
  StatusCode (response out) = 405 /\ fs out = disk w /\ trace out = [].
Proof.
  intros HM%String.eqb_neq out. subst out.
  apply run_out. intros out. exec. by leaf.
Qed.

(** The CORS handler answers a method other than POST and OPTIONS with 405
    when the request carries a form that parses. *)
Lemma Cors_other_method_parsed_405 (env : Env) (request : Request) (w : World) form :
  Method request <> MethodPost -> Method request <> MethodOptions ->
  Body request = Ok form ->
  let out := run CORS env request w in
  StatusCode (response out) = 405 /\ fs out = disk w.
Proof.
  intros HM%String.eqb_neq HO%String.eqb_neq HB out. subst out.
  apply run_out. intros out. exec. by leaf.
Qed.

(** It parses the form before it looks at the method: without a form that
    parses, any method but OPTIONS is answered 400. *)
Lemma Cors_unparsed_400 (env : Env) (request : Request) (w : World) e :
  Method request <> MethodOptions ->
  Body request = Err e ->
  let out := run CORS env request w in
  StatusCode (response out) = 400
  /\ body (response out) = "Could not parse form" ++ LF
  /\ fs out = disk w.
Proof.
  intros HO%String.eqb_neq HB out. subst out.
  apply run_out. intros out. exec. by leaf.
Qed.

(** C4 (amended). The CORS handler, for every request but the OPTIONS
    pre-flight, parses the form first, by [ParseMultipartForm(32 << 20)], a
    cap of 32 MiB; when the form does not parse it answers 400 with the text
    "Could not parse form" and does nothing more. The plain handler has no
    parse step of its own: for a POST its first call is [FormFile], which
    parses under the same cap (net/http's default), and when the form does
    not parse it answers 400 with the text "Unable to get file from form"
    and does nothing more. In both, the disk is then as it was. *)
Theorem C4_parse_comes_first (v : variant) (env : Env) (request : Request) (w : World) :
  parsed_by v request = true ->
  let out := run v env request w in
  (exists rest, trace out = (parse_steps v ++ rest)%list)
  /\ (forall e, Body request = Err e ->
        trace out = parse_steps v
        /\ StatusCode (response out) = 400
        /\ body (response out) = parse_failure_body v
        /\ fs out = disk w).
Proof.
  intros Hp out. subst out.
  destruct v; cbn [parsed_by] in Hp; [|apply negb_true_iff in Hp]; split.
  - apply run_out. intros out.
    exec; leaf; cbn [app parse_steps]; eexists; reflexivity.
  - intros e HB. apply run_out. intros out. exec; by leaf.
  - apply run_out. intros out.
    exec; leaf; cbn [app parse_steps]; eexists; reflexivity.
  - intros e HB. apply run_out. intros out. exec; by leaf.
Qed.

Lemma extends_refl (tgt : fpath) (f0 : gmap fpath node) : extends tgt f0 f0.
Proof. intros p _. by left. Qed.

Lemma extends_mkdir (tgt : fpath) (f0 f : gmap fpath node) :
  extends tgt f0 f -> extends tgt f0 (<[resolve "./uploads" := Directory]> f).
Proof.
  intros Hf p Hp. destruct (decide (p = uploads)) as [->|Hne].
  - right. split; [done|]. apply lookup_insert_eq.
  - rewrite lookup_insert_ne by done. by apply Hf.
Qed.

Lemma extends_write (tgt : fpath) (f0 f : gmap fpath node) x :
  extends tgt f0 f -> extends tgt f0 (<[tgt := x]> f).
Proof.
  intros Hf p Hp. rewrite lookup_insert_ne by done. by apply Hf.
Qed.

(** Whatever the request, a run writes at one location only, the one named
    by the clock, and may make the upload directory. *)
Lemma run_extends (v : variant) (env : Env) (request : Request) (w : World) :
  extends (resolve (filepath_Join ["./uploads"; Time_String (stamp env w)]))
    (disk w) (fs (run v env request w)).
Proof.
  unfold stamp. apply run_out. intros out.
  destruct v; exec; leaf;
    repeat first [ apply extends_refl | apply extends_write | apply extends_mkdir ].
Qed.

(** Whatever the request, the only name a run passes to [os.Create] is the
    upload directory joined with the text of the second reading of the
    clock. *)
Lemma created_name (v : variant) (env : Env) (request : Request) (w : World) name :
  In (EvCreate name) (trace (run v env request w)) ->
  name = filepath_Join ["./uploads"; Time_String (stamp env w)].
Proof.
  unfold stamp. apply run_out. intros out.
  destruct v; exec; leaf; cbn [app In]; intros Hin;
    repeat (destruct Hin as [Hin|Hin]; [first [discriminate Hin | by injection Hin]|]);
    by destruct Hin.
Qed.

(** C5. A run creates files by one call only, [os.Create] on the upload
    directory joined with the text of the clock reading taken for that call:
    the name is ["uploads/"] followed by that text, directly under
    ["./uploads"], and nothing of the request (its file name, its extension)
    is part of it. Any regular file the run leaves on disk that was not
    there before, with that content, is at this location. The text of a time
    is taken to be one path element, as Go renders it. *)
Theorem C5_stored_under_uploads_by_timestamp (v : variant) (env : Env)
    (request : Request) (w : World) :
  plain_name (Time_String (stamp env w)) = true ->
  let out := run v env request w in
  (forall name, In (EvCreate name) (trace out) ->
     name = "uploads/" ++ Time_String (stamp env w)
     /\ resolve name = stored env w
     /\ parent (resolve name) = uploads)
  /\ (forall p data, fs out !! p = Some (Regular data) ->
        disk w !! p <> Some (Regular data) -> p = stored env w).
Proof.
  intros Hplain out. subst out. split.
  - intros name ->%created_name.
    rewrite (Join_uploads_plain _ Hplain), (resolve_under_uploads _ Hplain).
    by split_and!.
  - intros p data Hp Hnew.
    destruct (decide (p = stored env w)) as [|Hne]; [done|].
    pose proof (run_extends v env request w p) as Hext.
    rewrite (resolve_Join_uploads _ Hplain) in Hext.
    destruct (Hext Hne) as [Heq|[_ Heq]]; congruence.
Qed.

(** C10. Where a run writes does not depend on the request: for one clock
    and one disk, any two requests that reach [os.Create] pass it the same
    name, the upload directory joined with the text of the clock reading, and
    every location other than that one and the upload directory holds after
    the run what it held before. The file name the client sent is bound to
    [_] in both handlers and has no part in it. *)
Theorem C10_location_independent_of_request (v : variant) (env : Env) (w : World) :
  let location := filepath_Join ["./uploads"; Time_String (stamp env w)] in
  (forall r1 r2 n1 n2,
     In (EvCreate n1) (trace (run v env r1 w)) ->
     In (EvCreate n2) (trace (run v env r2 w)) ->
     n1 = n2 /\ n1 = location)
  /\ (forall r p, p <> uploads -> p <> resolve location ->
        fs (run v env r w) !! p = disk w !! p).
Proof.
  intros location. split.
  - by intros r1 r2 n1 n2 ->%created_name ->%created_name.
  - intros r p Hu Ht. destruct (run_extends v env r w p Ht) as [Heq|[Hp _]]; done.
Qed.

(** C8 (amended). When the listener cannot be bound, [main] prints
    ["Server failed: "] and the error on standard output and then returns:
    the process ends at once, with status 0. *)
Theorem C8_bind_failure_is_printed_then_main_returns (v : variant)
    (ListenAndServe : string -> option error) (err : error) :
  ListenAndServe (addr v) = Some err ->
  output (main_of v ListenAndServe) = [started v; "Server failed: " ++ Error err ++ LF]
  /\ exit (main_of v ListenAndServe) = Exited 0.
Proof.
  intros Hl. destruct v; cbn [main_of addr started] in *;
    unfold Backend.main, Cors.main; by rewrite Hl.
Qed.
End Properties.

(** * The properties at work on sample requests *)

(** C1, as worded, fails: on a clock too coarse to tell two uploads apart,
    the second upload succeeds (200, the confirmation) and the upload
    directory lists one file before it and one file after it: the first
    upload's file was truncated and written over. *)
Lemma C1_second_upload_adds_no_file :
  let w1 := leave (@run sampleRuntime Plain frozen (post "file" "a.txt" ten_bytes)
                     empty_world) in
  let out := @run sampleRuntime Plain frozen (post "file" "b.txt" [x41; x42]) w1 in
  StatusCode (response out) = 200
  /\ body (response out) = "File successfully uploaded" ++ LF
  /\ size (files_in uploads (disk w1)) = 1%nat
  /\ size (files_in uploads (fs out)) = 1%nat
  /\ ~ one_new_file uploads (disk w1) (fs out).
Proof.
  intros w1 out.
  split_and!; [vm_compute; reflexivity|vm_compute; reflexivity|vm_compute; reflexivity
              |vm_compute; reflexivity|].
  intros (p & data & Hnone & Heq).
  apply (f_equal size) in Heq.
  rewrite (map_size_insert_None _ _ _ Hnone) in Heq.
  vm_compute in Heq. discriminate Heq.
Qed.

(** The 10-byte upload of [a.txt] under field ["file"], on an empty disk. *)
Lemma C1_upload_stored_witness :
  let out := @run sampleRuntime Plain calm (post "file" "a.txt" ten_bytes) empty_world in
  StatusCode (response out) = 200
  /\ body (response out) = "File successfully uploaded" ++ LF
  /\ fs out !! @stored sampleRuntime calm empty_world = Some (Regular ten_bytes)
  /\ one_new_file uploads (disk empty_world) (fs out).
Proof.
  destruct (@C1_upload_stored sampleRuntime Plain calm (post "file" "a.txt" ten_bytes)
              empty_world
              {| Filename := "a.txt"; Size := 10; content := ten_bytes |})
    as (Hs & Hb & Hf & _ & Hnew).
  - reflexivity.
  - vm_compute. reflexivity.
  - by repeat split.
  - reflexivity.
  - vm_compute. reflexivity.
  - left. vm_compute. reflexivity.
  - vm_compute. discriminate.
  - split_and!; [exact Hs|exact Hb|exact Hf|].
    apply Hnew. vm_compute. reflexivity.
Defined.

(** C2 fails in the CORS copy: a GET with no multipart body is answered 400,
    "Could not parse form", not 405. *)
Lemma C2_cors_get_answered_400 :
  let out := @run sampleRuntime CORS calm (bare MethodGet) empty_world in
  StatusCode (response out) = 400
  /\ body (response out) = "Could not parse form" ++ LF
  /\ trace out = [EvParseMultipartForm 33554432]
  /\ fs out = disk empty_world.
Proof. vm_compute. by split_and!. Qed.

Lemma C3_missing_file_field_witness :
  let out := @run sampleRuntime CORS calm post_no_file empty_world in
  StatusCode (response out) = 400 /\ fs out = disk empty_world.
Proof.
  apply (@C3_missing_file_field sampleRuntime CORS calm post_no_file empty_world).
  - reflexivity.
  - vm_compute. reflexivity.
Defined.

(** C4, as worded, fails in the plain copy: a POST whose body is no
    multipart form is answered 400 with the text of the file retrieval,
    "Unable to get file from form", not "Could not parse form"; the first
    call of the run is [FormFile], there is no parse step before it. *)
Lemma C4_plain_post_other_text :
  let out := @run sampleRuntime Plain calm (bare MethodPost) empty_world in
  Body (bare MethodPost) = Err ErrNotMultipart
  /\ StatusCode (response out) = 400
  /\ body (response out) = "Unable to get file from form" ++ LF ++ LF
  /\ body (response out) <> "Could not parse form" ++ LF
  /\ head (trace out) = Some (EvFormFile "file").
Proof. vm_compute. by split_and!. Qed.

(** A POST whose body is no multipart form, sent to the CORS copy. *)
Lemma C4_parse_comes_first_witness :
  let out := @run sampleRuntime CORS calm (bare MethodPost) empty_world in
  trace out = [EvParseMultipartForm 33554432]
  /\ StatusCode (response out) = 400
  /\ body (response out) = "Could not parse form" ++ LF
  /\ fs out = disk empty_world.
Proof.
  apply (proj2 (@C4_parse_comes_first sampleRuntime CORS calm (bare MethodPost)
                  empty_world eq_refl) ErrNotMultipart eq_refl).
Defined.

Lemma C5_stored_under_uploads_by_timestamp_witness :
  let out := @run sampleRuntime CORS calm (post "image" "photo.jpeg" ten_bytes)
               empty_world in
  In (EvCreate "uploads/2024-06-01 12:00:00.1001 +0000 UTC") (trace out)
  /\ forall p data, fs out !! p = Some (Regular data) ->
       disk empty_world !! p <> Some (Regular data) ->
       p = (false, ["uploads"; "2024-06-01 12:00:00.1001 +0000 UTC"]).
Proof.
  split.
  - vm_compute. tauto.
  - apply (@C5_stored_under_uploads_by_timestamp sampleRuntime CORS calm
             (post "image" "photo.jpeg" ten_bytes) empty_world).
    vm_compute. reflexivity.
Defined.

Lemma C6_failed_copy_leaves_file_witness :
  let out := @run sampleRuntime Plain disk_full (post "file" "a.txt" ten_bytes)
               empty_world in
  StatusCode (response out) = 500
  /\ body (response out) = "Unable to save file" ++ LF ++ LF
  /\ fs out !! @stored sampleRuntime disk_full empty_world
     = Some (Regular [x30; x31; x32; x33]).
Proof.
  destruct (@C6_failed_copy_leaves_file sampleRuntime Plain disk_full
              (post "file" "a.txt" ten_bytes) empty_world
              {| Filename := "a.txt"; Size := 10; content := ten_bytes |}
              4%nat (PathError "write" "uploads" "no space left on device"))
    as (Hs & Hb & Hf & _).
  - reflexivity.
  - vm_compute. reflexivity.
  - by repeat split.
  - reflexivity.
  - vm_compute. reflexivity.
  - left. vm_compute. reflexivity.
  - vm_compute. discriminate.
  - by split_and!.
Defined.

Lemma C7_options_preflight_witness :
  let out := @run sampleRuntime CORS calm (bare MethodOptions) empty_world in
  status (response out) = Some StatusOK
  /\ body (response out) = ""
  /\ cors_headers (response out)
  /\ trace out = []
  /\ fs out = disk empty_world.
Proof.
  destruct (@C7_options_preflight sampleRuntime calm (bare MethodOptions) empty_world
              eq_refl) as (Hs & _ & Hb & Hh & Ht & Hf & _).
  by split_and!.
Defined.

(** C8, as worded, fails: with the port taken, [main] returns and the
    process exits with status 0; it does not stay up. *)
Lemma C8_process_exits_when_port_taken :
  exit (@Backend.main sampleRuntime port_in_use) = Exited 0
  /\ ~ stays_up (@Backend.main sampleRuntime port_in_use).
Proof.
  split; [reflexivity|]. intros Hup. by apply (Hup 0).
Qed.

Lemma C8_bind_failure_witness :
  output (@main_of sampleRuntime CORS port_in_use)
  = ["Server started at http://localhost:8085" ++ LF;
     "Server failed: listen tcp :8085: bind: address already in use" ++ LF]
  /\ exit (@main_of sampleRuntime CORS port_in_use) = Exited 0.
Proof.
  apply (@C8_bind_failure_is_printed_then_main_returns sampleRuntime CORS port_in_use
           (errors_New "listen tcp :8085: bind: address already in use") eq_refl).
Defined.

(** An upload whose file name points outside the upload directory leaves
    that place alone, and is written under the clock's name like any other. *)
Lemma C10_location_independent_witness :
  let r1 := post "file" "a.txt" ten_bytes in
  let r2 := post "file" "../../etc/passwd" [x41] in
  fs (@run sampleRuntime Plain calm r2 empty_world) !! (true, ["etc"; "passwd"])
  = disk empty_world !! (true, ["etc"; "passwd"])
  /\ In (EvCreate "uploads/2024-06-01 12:00:00.1001 +0000 UTC")
        (trace (@run sampleRuntime Plain calm r1 empty_world))
  /\ In (EvCreate "uploads/2024-06-01 12:00:00.1001 +0000 UTC")
        (trace (@run sampleRuntime Plain calm r2 empty_world)).
Proof.
  intros r1 r2. split_and!.
  - apply (proj2 (@C10_location_independent_of_request sampleRuntime Plain calm
                    empty_world) r2 (true, ["etc"; "passwd"])).
    + discriminate.
    + vm_compute. discriminate.
  - vm_compute. tauto.
  - vm_compute. tauto.
Defined.

(** * Further properties of the handlers *)

Section More.
Context `{Runtime}.

Lemma error_headers_set h s b :
  error_headers (mkRW (<["X-Content-Type-Options" := ["nosniff"]]>
                         (<["Content-Type" := ["text/plain; charset=utf-8"]]>
                            (delete "Content-Length" h))) s b).
Proof.
  unfold error_headers; cbn [Header]. split.
  - by rewrite lookup_insert_ne, lookup_insert_eq by done.
  - by rewrite lookup_insert_eq.
Qed.

Lemma cors_only_no_content_type :
  (<["Access-Control-Allow-Headers" := ["Content-Type"]]>
     (<["Access-Control-Allow-Methods" := ["POST"]]>
        (<["Access-Control-Allow-Origin" := ["*"]]> (∅ : gmap string (list string)))))
  !! "Content-Type" = None.
Proof. by rewrite !lookup_insert_ne, lookup_empty by done. Qed.

Lemma error_only_no_cors (k : string) :
  k <> "X-Content-Type-Options" -> k <> "Content-Type" ->
  (<["X-Content-Type-Options" := ["nosniff"]]>
     (<["Content-Type" := ["text/plain; charset=utf-8"]]>
        (delete "Content-Length" (∅ : gmap string (list string)))))
  !! k = None.
Proof.
  intros H1 H2. rewrite !lookup_insert_ne by done.
  destruct (decide (k = "Content-Length")) as [->|Hne].
  - by rewrite lookup_delete_eq.
  - by rewrite lookup_delete_ne, lookup_empty.
Qed.

(** X1. Either handler answers with 200, 400, 405 or 500 and nothing else;
    a POST is never answered 405, and a request answered 405 leaves the disk
    as it was. *)
Theorem X1_status_codes (v : variant) (env : Env) (request : Request) (w : World) :
  let s := StatusCode (response (run v env request w)) in
  (s = 200 \/ s = 400 \/ s = 405 \/ s = 500)
  /\ (Method request = MethodPost -> s <> 405)
  /\ (s = 405 -> fs (run v env request w) = disk w).
Proof.
  cbv zeta. apply run_out. intros out.
  destruct v; exec; leaf.
  all: split_and!;
    [ cbv; tauto
    | try discriminate; intros HM; rewrite HM in *; discriminate
    | first [reflexivity | discriminate] ].
Qed.

(** X2. The line on standard output: a request answered 400 or 500 prints
    nothing, since every failure returns before the print. A request
    answered 405 prints the "Saved to file" line all the same, with the time
    between the first two readings of the clock; one answered 200 prints it
    with the time up to the third reading, but for the CORS copy's OPTIONS
    short cut, which prints nothing. *)
Theorem X2_timing_line (v : variant) (env : Env) (request : Request) (w : World) :
  let out := run v env request w in
  let s := StatusCode (response out) in
  (s = 400 \/ s = 500 -> stdout out = console w)
  /\ (s = 405 ->
      stdout out = (console w ++ [timing_line v env (reads w) (S (reads w))])%list)
  /\ (s = 200 ->
      stdout out =
        if preflight v request then console w
        else (console w ++ [timing_line v env (reads w) (S (S (reads w)))])%list).
Proof.
  cbv zeta. apply run_out. intros out.
  destruct v; exec; leaf; unfold preflight;
    repeat match goal with
           | Hx : String.eqb (Method request) _ = _ |- _ => rewrite Hx; clear Hx
           end.
  all: split_and!; intros Hs; first [reflexivity | cbv in Hs; intuition discriminate].
Qed.

Ltac header_leaf :=
  lazymatch goal with
  | |- error_headers (mkRW (<["X-Content-Type-Options" := _]> _) _ _) =>
      apply error_headers_set
  end.

(** X3. Every response other than 200 went through [http.Error]: its
    Content-Type is text/plain in UTF-8, it forbids sniffing, and its body is
    a message ended by a line feed. A 200 response carries no Content-Type
    of the handler's. *)
Theorem X3_error_responses_are_plain_text (v : variant) (env : Env) (request : Request)
    (w : World) :
  let out := run v env request w in
  (StatusCode (response out) <> 200 ->
     error_headers (response out)
     /\ exists msg, body (response out) = msg ++ LF)
  /\ (StatusCode (response out) = 200 ->
     Header (response out) !! "Content-Type" = None).
Proof.
  cbv zeta. apply run_out. intros out.
  destruct v; exec; leaf.
  all: split; intros Hs;
    first [ by destruct Hs
          | discriminate Hs
          | split; [header_leaf | eexists; reflexivity]
          | apply lookup_empty
          | apply cors_only_no_content_type ].
Qed.

(** X4. The plain handler sets no Access-Control-Allow-Origin header on any
    response, and an OPTIONS request is to it a wrong method: 405, the disk
    untouched. *)
Theorem X4_plain_has_no_cors (env : Env) (request : Request) (w : World) :
  let out := run Plain env request w in
  Header (response out) !! "Access-Control-Allow-Origin" = None
  /\ (Method request = MethodOptions ->
      StatusCode (response out) = 405 /\ fs out = disk w).
Proof.
  cbv zeta. apply run_out. intros out.
  exec; leaf.
  all: split;
    [ first [ apply lookup_empty | by apply error_only_no_cors ]
    | intros HM; first [ by split | rewrite HM in *; discriminate ] ].
Qed.

Ltac post_facts HM :=
  let HP := fresh "HP" in
  let HO := fresh "HO" in
  pose proof (eqb_Method _ _ MethodPost HM) as HP;
  pose proof (eqb_Method _ _ MethodOptions HM) as HO;
  change (String.eqb MethodPost MethodPost) with true in HP;
  change (String.eqb MethodPost MethodOptions) with false in HO.

(** A POST that carries the file, read without failure. *)
Lemma opened_file env (request : Request) key fh :
  first_file key (form_of request) = Some fh -> Open_fault env = None ->
  exists form, Body request = Ok form /\ opened env key (Some form) = Ok (content fh, fh).
Proof.
  unfold form_of. intros Hff HfO. destruct (Body request) as [form|e]; [|done].
  exists form. split; [done|]. unfold opened. by rewrite Hff, HfO.
Qed.

(** X5. When the upload directory is missing and cannot be made, a POST
    that carries the file is answered 500 "Unable to create upload
    directory"; no file is created, the disk is as it was and nothing is
    printed. *)
Theorem X5_mkdir_failure (v : variant) (env : Env) (request : Request) (w : World)
    (fh : FileHeader) (e : error) :
  Method request = MethodPost ->
  first_file (field v) (form_of request) = Some fh ->
  Open_fault env = None -> Stat_fault env = None ->
  disk w !! uploads = None ->
  Mkdir_fault env = Some e ->
  let out := run v env request w in
  StatusCode (response out) = 500
  /\ body (response out) = "Unable to create upload directory" ++ LF ++ LF
  /\ fs out = disk w
  /\ (forall name, ~ In (EvCreate name) (trace out))
  /\ stdout out = console w.
Proof.
  intros HM Hff HfO HfS Hd HfM out. subst out. post_facts HM.
  destruct (opened_file _ _ _ _ Hff HfO) as (form & HB & Hop).
  apply run_out. intros out.
  destruct v; cbn [field] in Hop; exec; leaf;
    (split_and!; [done|done|done| |done]);
    intros name; cbn [app In]; intuition discriminate.
Qed.

(** X6. When the upload directory was missing, was made, and the file then
    cannot be created, the answer is 500 "Unable to create file" and the new,
    empty directory stays: the disk is the one before with the directory
    added, and the directory lists the files it listed. *)
Theorem X6_create_failure_leaves_directory (v : variant) (env : Env) (request : Request)
    (w : World) (fh : FileHeader) (e : error) :
  Method request = MethodPost ->
  first_file (field v) (form_of request) = Some fh ->
  Open_fault env = None -> Stat_fault env = None -> Mkdir_fault env = None ->
  disk w !! uploads = None ->
  Create_fault env = Some e ->
  let out := run v env request w in
  StatusCode (response out) = 500
  /\ body (response out) = "Unable to create file" ++ LF ++ LF
  /\ fs out = <[uploads := Directory]> (disk w)
  /\ files_in uploads (fs out) = files_in uploads (disk w).
Proof.
  intros HM Hff HfO HfS HfM Hd HfC out. subst out. post_facts HM.
  destruct (opened_file _ _ _ _ Hff HfO) as (form & HB & Hop).
  apply run_out. intros out.
  destruct v; cbn [field] in Hop; exec; leaf;
    (split_and!; [done|done|done|]); by apply files_in_insert_dir.
Qed.

(** X7. When ["./uploads"] is a regular file, the handler does not call
    [os.Mkdir] ([os.Stat] succeeds), cannot create a file under it, and
    answers 500 "Unable to create file"; the disk is as it was. *)
Theorem X7_uploads_is_a_file (v : variant) (env : Env) (request : Request) (w : World)
    (fh : FileHeader) (data : list byte) :
  Method request = MethodPost ->
  first_file (field v) (form_of request) = Some fh ->
  no_fault env ->
  plain_name (Time_String (stamp env w)) = true ->
  disk w !! uploads = Some (Regular data) ->
  let out := run v env request w in
  StatusCode (response out) = 500
  /\ body (response out) = "Unable to create file" ++ LF ++ LF
  /\ fs out = disk w
  /\ (forall name perm, ~ In (EvMkdir name perm) (trace out))
  /\ In (EvStat "./uploads") (trace out)
  /\ In (EvCreate (filepath_Join ["./uploads"; Time_String (stamp env w)])) (trace out).
Proof.
  intros HM Hff (HfO & HfS & HfM & HfC) Hplain Hd out. subst out. post_facts HM.
  destruct (opened_file _ _ _ _ Hff HfO) as (form & HB & Hop).
  unfold stamp in *.
  apply run_out. intros out.
  destruct v; cbn [field] in Hop; exec; leaf;
    (split_and!; [done|done|done| | |]); try intros name perm; cbn [app In];
    intuition discriminate.
Qed.

(** X8. When the upload directory is there, no request makes the handler
    call [os.Mkdir]. *)
Theorem X8_existing_directory_is_reused (v : variant) (env : Env) (request : Request)
    (w : World) :
  Stat_fault env = None ->
  disk w !! uploads = Some Directory ->
  forall name perm, ~ In (EvMkdir name perm) (trace (run v env request w)).
Proof.
  intros HfS Hd name perm. apply run_out. intros out.
  destruct v; exec; leaf; cbn [app In]; intuition discriminate.
Qed.

Lemma files_in_mkdir (f : gmap fpath node) :
  files_in uploads (<[uploads := Directory]> f) = files_in uploads f.
Proof.
  apply map_eq. intros q. rewrite !files_in_lookup.
  destruct (decide (q = uploads)) as [->|Hne]; [done|].
  by rewrite lookup_insert_ne.
Qed.

Lemma stored_not_uploads env w : stored env w <> uploads.
Proof. discriminate. Qed.

(** The disk and the clock a successful upload leaves. *)
Lemma upload_world (v : variant) (env : Env) (request : Request) (w : World)
    (fh : FileHeader) :
  Method request = MethodPost ->
  first_file (field v) (form_of request) = Some fh ->
  no_fault env -> Copy_fault env = None ->
  plain_name (Time_String (stamp env w)) = true ->
  (disk w !! uploads = None \/ disk w !! uploads = Some Directory) ->
  disk w !! stored env w <> Some Directory ->
  let out := run v env request w in
  StatusCode (response out) = 200
  /\ fs out = <[stored env w := Regular (content fh)]> (<[uploads := Directory]> (disk w))
  /\ ticks out = (reads w + clock_reads v)%nat.
Proof.
  intros HM Hff (HfO & HfS & HfM & HfC) HfY Hplain Hdir Htgt out. subst out.
  post_facts HM.
  destruct (opened_file _ _ _ _ Hff HfO) as (form & HB & Hop).
  unfold stored, stamp in *.
  apply run_out. intros out.
  destruct v; cbn [field] in Hop; destruct Hdir as [Hd|Hd]; exec;
    try (match goal with
         | Hx : disk w !! (false, ["uploads"; _]) = Some Directory |- _ =>
             destruct (Htgt Hx)
         end).
  all: leaf.
  all: rewrite !(resolve_Join_uploads _ Hplain), insert_insert_eq.
  all: split_and!; [done| |cbn [clock_reads]; lia].
  all: first [ reflexivity | by rewrite (insert_id (disk w) uploads Directory Hd) ].
Qed.

(** X9. Two uploads in a row, met by no failure: both are answered 200 and
    the upload directory lists what it listed, with the first name set to the
    first payload and then the second name set to the second. When the two
    timestamps render differently both files are there with their bytes;
    when they render the same, the one file holds the second payload. *)
Theorem X9_two_uploads (v : variant) (env : Env) (r1 r2 : Request) (w : World)
    (fh1 fh2 : FileHeader) :
  Method r1 = MethodPost -> Method r2 = MethodPost ->
  first_file (field v) (form_of r1) = Some fh1 ->
  first_file (field v) (form_of r2) = Some fh2 ->
  no_fault env -> Copy_fault env = None ->
  (disk w !! uploads = None \/ disk w !! uploads = Some Directory) ->
  let out1 := run v env r1 w in
  let w1 := leave out1 in
  let out2 := run v env r2 w1 in
  plain_name (Time_String (stamp env w)) = true ->
  plain_name (Time_String (stamp env w1)) = true ->
  disk w !! stored env w <> Some Directory ->
  disk w !! stored env w1 <> Some Directory ->
  StatusCode (response out1) = 200 /\ StatusCode (response out2) = 200
  /\ files_in uploads (fs out2)
     = <[stored env w1 := content fh2]>
         (<[stored env w := content fh1]> (files_in uploads (disk w)))
  /\ (stored env w1 <> stored env w ->
      fs out2 !! stored env w = Some (Regular (content fh1))
      /\ fs out2 !! stored env w1 = Some (Regular (content fh2)))
  /\ (stored env w1 = stored env w ->
      fs out2 !! stored env w = Some (Regular (content fh2))).
Proof.
  intros HM1 HM2 Hf1 Hf2 Hnf HfY Hdir out1 w1 out2 Hp1 Hp2 Ht1 Ht2.
  destruct (upload_world v env r1 w fh1 HM1 Hf1 Hnf HfY Hp1 Hdir Ht1)
    as (Hs1 & Hfs1 & Hk1).
  fold out1 in Hs1, Hfs1, Hk1.
  assert (Hd1 : disk w1 !! uploads = Some Directory).
  { change (disk w1) with (fs out1). rewrite Hfs1.
    rewrite lookup_insert_ne by apply stored_not_uploads. apply lookup_insert_eq. }
  assert (Hn1 : disk w1 !! stored env w1 <> Some Directory).
  { change (disk w1) with (fs out1). rewrite Hfs1.
    destruct (decide (stored env w = stored env w1)) as [Heq|Hne].
    - rewrite Heq, lookup_insert_eq. discriminate.
    - rewrite lookup_insert_ne by done.
      rewrite lookup_insert_ne by (symmetry; apply stored_not_uploads). done. }
  destruct (upload_world v env r2 w1 fh2 HM2 Hf2 Hnf HfY Hp2 (or_intror Hd1) Hn1)
    as (Hs2 & Hfs2 & _).
  fold out2 in Hs2, Hfs2.
  assert (Hfs : fs out2 = <[stored env w1 := Regular (content fh2)]>
                   (<[stored env w := Regular (content fh1)]>
                      (<[uploads := Directory]> (disk w)))).
  { rewrite Hfs2. f_equal. rewrite (insert_id _ _ _ Hd1).
    change (disk w1) with (fs out1). exact Hfs1. }
  split_and!; [done|done| | |].
  - rewrite Hfs, !files_in_insert_file by apply file_in_uploads.
    by rewrite files_in_mkdir.
  - intros Hne. rewrite Hfs. split.
    + rewrite lookup_insert_ne by done. apply lookup_insert_eq.
    + apply lookup_insert_eq.
  - intros Heq. rewrite Hfs, Heq. apply lookup_insert_eq.
Qed.

Lemma opened_agree env key (f1 f2 : Form) :
  content <$> first_file key (Some f1) = content <$> first_file key (Some f2) ->
  (exists e, opened env key (Some f1) = Err e /\ opened env key (Some f2) = Err e)
  \/ (exists data fh1 fh2, opened env key (Some f1) = Ok (data, fh1)
                           /\ opened env key (Some f2) = Ok (data, fh2)).
Proof.
  unfold opened. intros Hc.
  destruct (first_file key (Some f1)) as [fh1|];
    destruct (first_file key (Some f2)) as [fh2|]; try discriminate Hc.
  - injection Hc as Hc. destruct (Open_fault env) as [e|].
    + left. by exists e.
    + right. exists (content fh1), fh1, fh2. by rewrite Hc.
  - left. by exists ErrMissingFile.
Qed.

(** X10. A handler reads of a request its method, whether the form parses,
    and the bytes of the first file under its field, and nothing else: two
    requests that agree on these (whatever the file names, sizes, other
    fields and other files) get the same response, leave the same disk, make
    the same calls, print the same lines and read the clock as often. *)
Theorem X10_request_read_through (v : variant) (env : Env) (r1 r2 : Request) (w : World) :
  Method r1 = Method r2 ->
  (is_Some (form_of r1) <-> is_Some (form_of r2)) ->
  content <$> first_file (field v) (form_of r1)
    = content <$> first_file (field v) (form_of r2) ->
  observe (run v env r1 w) = observe (run v env r2 w).
Proof.
  intros HM Hsome Hc.
  assert (Hm : forall m, String.eqb (Method r1) m = String.eqb (Method r2) m)
    by (intros m; by rewrite HM).
  assert (Hcases :
    (exists e1 e2, Body r1 = Err e1 /\ Body r2 = Err e2)
    \/ (exists f1 f2 e, Body r1 = Ok f1 /\ Body r2 = Ok f2
          /\ opened env (field v) (Some f1) = Err e
          /\ opened env (field v) (Some f2) = Err e)
    \/ (exists f1 f2 data fh1 fh2, Body r1 = Ok f1 /\ Body r2 = Ok f2
          /\ opened env (field v) (Some f1) = Ok (data, fh1)
          /\ opened env (field v) (Some f2) = Ok (data, fh2))).
  { unfold form_of in *.
    destruct (Body r1) as [f1|e1]; destruct (Body r2) as [f2|e2].
    - destruct (opened_agree env _ _ _ Hc)
        as [(e & Hop1 & Hop2)|(data & fh1 & fh2 & Hop1 & Hop2)].
      + right; left. by exists f1, f2, e.
      + right; right. by exists f1, f2, data, fh1, fh2.
    - exfalso; destruct (proj1 Hsome) as [? Hx]; [by eexists|discriminate Hx].
    - exfalso; destruct (proj2 Hsome) as [? Hx]; [by eexists|discriminate Hx].
    - left. by exists e1, e2. }
  clear Hc Hsome HM.
  pose proof (Hm MethodPost) as HP1. pose proof (Hm MethodOptions) as HO1. clear Hm.
  destruct v; cbn [field] in Hcases.
  - clear HO1. destruct (String.eqb (Method r2) MethodPost) eqn:HP2.
    + destruct Hcases as [(e1 & e2 & HB1 & HB2)
        |[(f1 & f2 & e & HB1 & HB2 & Hop1 & Hop2)
         |(f1 & f2 & data & fh1 & fh2 & HB1 & HB2 & Hop1 & Hop2)]];
        exec; reflexivity.
    + clear Hcases. exec; reflexivity.
  - destruct (String.eqb (Method r2) MethodOptions) eqn:HO2.
    + clear Hcases HP1. exec; reflexivity.
    + destruct (String.eqb (Method r2) MethodPost) eqn:HP2;
        destruct Hcases as [(e1 & e2 & HB1 & HB2)
        |[(f1 & f2 & e & HB1 & HB2 & Hop1 & Hop2)
         |(f1 & f2 & data & fh1 & fh2 & HB1 & HB2 & Hop1 & Hop2)]];
        exec; reflexivity.
Qed.
End More.

(** * The browser script *)

Section Script.
Context `{Runtime}.
Import Frontend.

Lemma getElementById_in (document : gset string) id :
  id ∈ document -> getElementById document id = Some id.
Proof. intros Hin. unfold getElementById. by rewrite decide_True. Qed.

Lemma getElementById_out (document : gset string) id :
  id ∉ document -> getElementById document id = None.
Proof. intros Hin. unfold getElementById. by rewrite decide_False. Qed.

(** X11. A submit on a form one of the three handlers took charge of,
    however the request ends (any status, a body that cannot be read, no
    answer at all): the default submission is prevented first, one request
    goes out, a POST to the handler's URL, and the user is shown exactly one
    alert. *)
Theorem X11_one_alert_per_submission (k : form_kind) (document : gset string)
    (formId : string) (network : settled Response) :
  formId ∈ document ->
  let effects := submit (handlerOf k document formId) formId network in
  head effects = Some preventDefault
  /\ fetches effects = [(urlOf k, "POST", formId)]
  /\ length (alerts effects) = 1%nat.
Proof.
  intros Hin effects. subst effects. unfold submit.
  destruct k; cbn [handlerOf urlOf];
    unfold handleImageUploadForm, handleSongUploadForm, handleRSVPUploadForm;
    rewrite (getElementById_in _ _ Hin); cbn [listeners_on];
    rewrite !String.eqb_refl; cbn [andb flat_map app];
    (destruct network as [response|reason]; [|done]);
    (destruct (status response =? 200); [by destruct (text response)|]);
    (destruct (status response =? 400); [done|]);
    by destruct (status response =? 500).
Qed.

(** X12. Called with an id the document does not hold, a handler reports
    "Form not found" on the console once, registers no listener of any kind,
    and a later submit is not intercepted. *)
Theorem X12_missing_form_registers_nothing (k : form_kind) (document : gset string)
    (formId : string) :
  formId ∉ document ->
  let page := handlerOf k document formId in
  errors page = [[Str "Form not found! Check the form ID."]]
  /\ (forall target type, listeners_on target type page = [])
  /\ (forall target network, submit page target network = []).
Proof.
  intros Hout page. subst page.
  destruct k; cbn [handlerOf];
    unfold submit, handleImageUploadForm, handleSongUploadForm, handleRSVPUploadForm;
    by rewrite (getElementById_out _ _ Hout).
Qed.

(** X13. On DOMContentLoaded the script reports no error whatever the
    document holds, registers one submit listener on each of the three forms
    that is present and none on one that is absent, and a submit on a present
    form shows exactly one alert. *)
Theorem X13_page_load_wires_present_forms (document : gset string) :
  let page := DOMContentLoaded document in
  errors page = []
  /\ (forall k, length (listeners_on (idOf k) "submit" page)
                = if decide (idOf k ∈ document) then 1%nat else 0%nat)
  /\ (forall k network, idOf k ∈ document ->
        length (alerts (submit page (idOf k) network)) = 1%nat).
Proof.
  intros page. subst page. unfold DOMContentLoaded, submit.
  unfold handleImageUploadForm, handleSongUploadForm, handleRSVPUploadForm, getElementById.
  split_and!.
  - by repeat case_decide.
  - intros k. destruct k; cbn [idOf]; by repeat case_decide.
  - intros k network Hin.
    destruct k; cbn [idOf] in *; repeat case_decide; try done;
      cbn [listeners_on app String.eqb Ascii.eqb Bool.eqb andb flat_map];
      (destruct network as [response|reason]; [|done]);
      (destruct (status response =? 200); [by destruct (text response)|]);
      (destruct (status response =? 400); [done|]);
      by destruct (status response =? 500).
Qed.

(** X14. The script resets a form in one case only: the RSVP form, after an
    answer with status 200 whose body could be read. *)
Theorem X14_only_rsvp_success_resets (k : form_kind) (document : gset string)
    (formId : string) (network : settled Response) :
  formId ∈ document ->
  resets (submit (handlerOf k document formId) formId network)
  = match k, network with
    | RSVP, Fulfilled response =>
        match text response with
        | Fulfilled _ => if status response =? 200 then [formId] else []
        | Rejected _ => []
        end
    | _, _ => []
    end.
Proof.
  intros Hin. unfold submit.
  destruct k; cbn [handlerOf];
    unfold handleImageUploadForm, handleSongUploadForm, handleRSVPUploadForm;
    rewrite (getElementById_in _ _ Hin); cbn [listeners_on];
    rewrite !String.eqb_refl; cbn [andb flat_map app];
    (destruct network as [response|reason]; [|done]);
    (destruct (status response =? 200); [by destruct (text response)|]);
    (destruct (status response =? 400); [by destruct (text response)|]);
    by destruct (status response =? 500), (text response).
Qed.
End Script.

(** * The further properties at work on sample requests *)

Lemma X5_mkdir_failure_witness :
  let out := @run sampleRuntime Plain mkdir_denied (post "file" "a.txt" ten_bytes)
               empty_world in
  StatusCode (response out) = 500
  /\ body (response out) = "Unable to create upload directory" ++ LF ++ LF
  /\ fs out = disk empty_world.
Proof.
  destruct (@X5_mkdir_failure sampleRuntime Plain mkdir_denied
              (post "file" "a.txt" ten_bytes) empty_world
              {| Filename := "a.txt"; Size := 10; content := ten_bytes |}
              (PathError "mkdir" "./uploads" "permission denied"))
    as (Hs & Hb & Hf & _).
  - reflexivity.
  - vm_compute. reflexivity.
  - reflexivity.
  - reflexivity.
  - vm_compute. reflexivity.
  - reflexivity.
  - by split_and!.
Defined.

Lemma X6_create_failure_witness :
  let out := @run sampleRuntime CORS create_denied (post "image" "a.png" ten_bytes)
               empty_world in
  StatusCode (response out) = 500
  /\ fs out = <[uploads := Directory]> (disk empty_world)
  /\ files_in uploads (fs out) = files_in uploads (disk empty_world).
Proof.
  destruct (@X6_create_failure_leaves_directory sampleRuntime CORS create_denied
              (post "image" "a.png" ten_bytes) empty_world
              {| Filename := "a.png"; Size := 10; content := ten_bytes |}
              (PathError "open" "uploads" "permission denied"))
    as (Hs & _ & Hf & Hl).
  - reflexivity.
  - vm_compute. reflexivity.
  - reflexivity.
  - reflexivity.
  - reflexivity.
  - vm_compute. reflexivity.
  - reflexivity.
  - by split_and!.
Defined.

Lemma X7_uploads_is_a_file_witness :
  let out := @run sampleRuntime Plain calm (post "file" "a.txt" ten_bytes)
               uploads_is_file in
  StatusCode (response out) = 500
  /\ body (response out) = "Unable to create file" ++ LF ++ LF
  /\ fs out = disk uploads_is_file
  /\ ~ In (EvMkdir "./uploads" ModePerm) (trace out).
Proof.
  destruct (@X7_uploads_is_a_file sampleRuntime Plain calm (post "file" "a.txt" ten_bytes)
              uploads_is_file
              {| Filename := "a.txt"; Size := 10; content := ten_bytes |} [])
    as (Hs & Hb & Hf & Hm & _).
  - reflexivity.
  - vm_compute. reflexivity.
  - by repeat split.
  - vm_compute. reflexivity.
  - vm_compute. reflexivity.
  - split_and!; [exact Hs|exact Hb|exact Hf|apply Hm].
Defined.

Lemma X8_existing_directory_witness :
  ~ In (EvMkdir "./uploads" ModePerm)
       (trace (@run sampleRuntime Plain calm (post "file" "a.txt" ten_bytes)
                 uploads_ready)).
Proof.
  apply (@X8_existing_directory_is_reused sampleRuntime Plain calm
           (post "file" "a.txt" ten_bytes) uploads_ready).
  - reflexivity.
  - vm_compute. reflexivity.
Defined.

(** Two uploads on a clock that moves: two files, each with its bytes. *)
Lemma X9_two_uploads_witness :
  let out1 := @run sampleRuntime Plain calm (post "file" "a.txt" ten_bytes) empty_world in
  let out2 := @run sampleRuntime Plain calm (post "file" "b.txt" [x41; x42]) (leave out1) in
  StatusCode (response out1) = 200 /\ StatusCode (response out2) = 200
  /\ fs out2 !! @stored sampleRuntime calm empty_world = Some (Regular ten_bytes)
  /\ fs out2 !! @stored sampleRuntime calm (leave out1) = Some (Regular [x41; x42]).
Proof.
  intros out1 out2.
  destruct (@X9_two_uploads sampleRuntime Plain calm (post "file" "a.txt" ten_bytes)
              (post "file" "b.txt" [x41; x42]) empty_world
              {| Filename := "a.txt"; Size := 10; content := ten_bytes |}
              {| Filename := "b.txt"; Size := 2; content := [x41; x42] |})
    as (Hs1 & Hs2 & _ & Hboth & _).
  - reflexivity.
  - reflexivity.
  - vm_compute. reflexivity.
  - vm_compute. reflexivity.
  - by repeat split.
  - reflexivity.
  - left. vm_compute. reflexivity.
  - vm_compute. reflexivity.
  - vm_compute. reflexivity.
  - vm_compute. discriminate.
  - vm_compute. discriminate.
  - destruct Hboth as [H1 H2]; [vm_compute; discriminate|].
    by split_and!.
Defined.

(** The same bytes under another file name, with a comment beside them. *)
Lemma X10_request_read_through_witness :
  let r1 := post "file" "a.txt" ten_bytes in
  let r2 := {| Method := MethodPost; URL_Path := "/upload";
               Body := Ok {| Value := {[ "comment" := ["hello"] ]};
                             Files := {[ "file" :=
                               [ {| Filename := "../b.sh"; Size := 0;
                                    content := ten_bytes |} ] ]} |} |} in
  observe (@run sampleRuntime Plain calm r1 empty_world)
  = observe (@run sampleRuntime Plain calm r2 empty_world).
Proof.
  intros r1 r2.
  apply (@X10_request_read_through sampleRuntime Plain calm r1 r2 empty_world).
  - reflexivity.
  - split; intros _; by eexists.
  - vm_compute. reflexivity.
Defined.

Lemma X11_one_alert_witness :
  let effects :=
    Frontend.submit (Frontend.handleRSVPUploadForm rsvp_page "rsvp-upload-form")
      "rsvp-upload-form" (Frontend.Fulfilled not_found) in
  head effects = Some Frontend.preventDefault
  /\ Frontend.fetches effects
     = [("https://www.katyacaleb.com:8085/uploadrsvp", "POST", "rsvp-upload-form")]
  /\ length (Frontend.alerts effects) = 1%nat.
Proof.
  apply (X11_one_alert_per_submission Frontend.RSVP rsvp_page "rsvp-upload-form"
           (Frontend.Fulfilled not_found)).
  by apply elem_of_singleton.
Defined.

Lemma X12_missing_form_witness :
  let page := Frontend.handleImageUploadForm rsvp_page "image-upload-form" in
  Frontend.errors page = [[Frontend.Str "Form not found! Check the form ID."]]
  /\ Frontend.submit page "image-upload-form" (Frontend.Fulfilled accepted) = [].
Proof.
  destruct (X12_missing_form_registers_nothing Frontend.Image rsvp_page "image-upload-form")
    as (He & _ & Hs).
  - intros Hin%elem_of_singleton. discriminate Hin.
  - split; [exact He|apply Hs].
Defined.

Lemma X14_only_rsvp_success_resets_witness :
  Frontend.resets
    (Frontend.submit (Frontend.handleRSVPUploadForm rsvp_page "rsvp-upload-form")
       "rsvp-upload-form" (Frontend.Fulfilled accepted))
  = ["rsvp-upload-form"].
Proof.
  apply (X14_only_rsvp_success_resets Frontend.RSVP rsvp_page "rsvp-upload-form"
           (Frontend.Fulfilled accepted)).
  by apply elem_of_singleton.
Defined.
